(** * software_page_generator: the config parser and the markup renderer

    A shallow embedding of [templates/page_template.py] and of the pure
    functions of [build.py], followed by the properties the specification
    states about them.

    Python's [str] is a sequence of Unicode code points: [len], slicing,
    [strip] and [split] all count code points, so a string is modelled as a
    list of code points and not as UTF-8 bytes. *)

From Stdlib Require Import String Ascii NArith Arith Bool Lia List.
Import ListNotations.

Set Implicit Arguments.

(* ================================================================== *)
(** * Python strings *)
(* ================================================================== *)

Module PyStr.

(** A code point. *)
Definition char := N.

(** A Python [str]. *)
Definition str := list char.

Definition char_eqb (a b : char) : bool := N.eqb a b.

Fixpoint str_eqb (a b : str) : bool :=
  match a, b with
  | [], [] => true
  | x :: a', y :: b' => char_eqb x y && str_eqb a' b'
  | _, _ => false
  end.

(** ** Literals

    A literal is written as in the Python source and read here: the escapes
    [\n], [\\] and [\xHH] are resolved on the bytes, then the bytes are
    decoded as UTF-8 (the encoding of the source files). *)

Definition hexval (b : N) : N :=
  if (48 <=? b)%N && (b <=? 57)%N then (b - 48)%N
  else if (65 <=? b)%N && (b <=? 70)%N then (b - 55)%N
  else if (97 <=? b)%N && (b <=? 102)%N then (b - 87)%N
  else 0%N.

Fixpoint unescape (bs : list N) : list N :=
  match bs with
  | [] => []
  | 92%N :: 110%N :: rest => 10%N :: unescape rest
  | 92%N :: 92%N :: rest => 92%N :: unescape rest
  | 92%N :: 120%N :: h :: l :: rest => (16 * hexval h + hexval l)%N :: unescape rest
  | b :: rest => b :: unescape rest
  end.

Fixpoint utf8_decode (bs : list N) : str :=
  match bs with
  | [] => []
  | b :: rest =>
      if (b <? 0x80)%N then b :: utf8_decode rest
      else if (b <? 0xE0)%N then
        match rest with
        | b1 :: rest1 => ((b - 0xC0) * 64 + (b1 - 0x80))%N :: utf8_decode rest1
        | _ => []
        end
      else if (b <? 0xF0)%N then
        match rest with
        | b1 :: b2 :: rest2 =>
            ((b - 0xE0) * 4096 + (b1 - 0x80) * 64 + (b2 - 0x80))%N :: utf8_decode rest2
        | _ => []
        end
      else
        match rest with
        | b1 :: b2 :: b3 :: rest3 =>
            ((b - 0xF0) * 262144 + (b1 - 0x80) * 4096 + (b2 - 0x80) * 64 + (b3 - 0x80))%N
              :: utf8_decode rest3
        | _ => []
        end
  end.

Definition py (s : string) : str :=
  utf8_decode (unescape (map N_of_ascii (list_ascii_of_string s))).

(** ** [str.isspace], one code point: the characters [str.strip()],
    [str.split()] and the regular expression class [\s] treat as blank. *)
Definition isspace (c : char) : bool :=
  ((0x09 <=? c) && (c <=? 0x0D)
   || (0x1C <=? c) && (c <=? 0x20)
   || (c =? 0x85) || (c =? 0xA0) || (c =? 0x1680)
   || (0x2000 <=? c) && (c <=? 0x200A)
   || (c =? 0x2028) || (c =? 0x2029) || (c =? 0x202F)
   || (c =? 0x205F) || (c =? 0x3000))%N.

(** ** [s.strip()] *)
Fixpoint lstrip (s : str) : str :=
  match s with
  | [] => []
  | c :: rest => if isspace c then lstrip rest else s
  end.

Definition rstrip (s : str) : str := rev (lstrip (rev s)).

Definition strip (s : str) : str := rstrip (lstrip s).

(** Truthiness of a string: [if s:]. *)
Definition truthy (s : str) : bool :=
  match s with [] => false | _ => true end.

(** ** [s.startswith(p)], [s.endswith(p)], [sub in s] *)
Fixpoint startswith (p s : str) : bool :=
  match p, s with
  | [], _ => true
  | x :: p', y :: s' => char_eqb x y && startswith p' s'
  | _ :: _, [] => false
  end.

Definition endswith (p s : str) : bool := startswith (rev p) (rev s).

Fixpoint contains (sub s : str) : bool :=
  startswith sub s ||
  match s with
  | [] => false
  | _ :: rest => contains sub rest
  end.

(** ** [s[1:-1]] *)
Definition slice_1_m1 (s : str) : str := removelast (tl s).

(** ** [s.split(sep)] for a non-empty [sep]: leftmost, non-overlapping
    occurrences; [skip] counts the characters of a separator just matched
    that are still to be passed over, [cur] is the piece being read,
    reversed. *)
Fixpoint split_aux (sep : str) (skip : nat) (cur : str) (s : str) : list str :=
  match s with
  | [] => [rev cur]
  | c :: rest =>
      match skip with
      | S k => split_aux sep k cur rest
      | O =>
          if startswith sep s
          then rev cur :: split_aux sep (length sep - 1) [] rest
          else split_aux sep 0 (c :: cur) rest
      end
  end.

Definition split (sep s : str) : list str := split_aux sep 0 [] s.

(** ** [s.split(sep, 1)]: at most one cut, at the first occurrence. *)
Fixpoint split1_aux (sep : str) (cur : str) (s : str) : list str :=
  match s with
  | [] => [rev cur]
  | c :: rest =>
      if startswith sep s
      then [rev cur; skipn (length sep) s]
      else split1_aux sep (c :: cur) rest
  end.

Definition split1 (sep s : str) : list str := split1_aux sep [] s.

(** ** [s.split()]: the maximal runs of non-blank characters. *)
Fixpoint split_ws_aux (cur : str) (s : str) : list str :=
  match s with
  | [] => match cur with [] => [] | _ => [rev cur] end
  | c :: rest =>
      if isspace c
      then match cur with
           | [] => split_ws_aux [] rest
           | _ => rev cur :: split_ws_aux [] rest
           end
      else split_ws_aux (c :: cur) rest
  end.

Definition split_ws (s : str) : list str := split_ws_aux [] s.

(** ** [s.replace(old, new)] for a non-empty [old]. *)
Fixpoint replace_aux (old new : str) (skip : nat) (s : str) : str :=
  match s with
  | [] => []
  | c :: rest =>
      match skip with
      | S k => replace_aux old new k rest
      | O =>
          if startswith old s
          then new ++ replace_aux old new (length old - 1) rest
          else c :: replace_aux old new 0 rest
      end
  end.

Definition replace (old new s : str) : str := replace_aux old new 0 s.

(** ** [re.sub('[...]', '', s)] for a character class: every character of
    the class is deleted. *)
Definition in_class (cls : str) (c : char) : bool := existsb (char_eqb c) cls.

Definition re_sub_class (cls : str) (s : str) : str :=
  filter (fun c => negb (in_class cls c)) s.

(** ** [join]: the parts glued with the empty separator. *)
Definition join (parts : list str) : str := concat parts.

(** ** [str(n)] for a non-negative integer: its decimal digits. *)
Fixpoint digits_aux (fuel : nat) (n : nat) (acc : str) : str :=
  match fuel with
  | O => acc
  | S f =>
      let acc' := (48 + N.of_nat (n mod 10))%N :: acc in
      if n / 10 =? 0 then acc' else digits_aux f (n / 10) acc'
  end.

Definition str_of_nat (n : nat) : str := digits_aux (S n) n [].

End PyStr.

Import PyStr.
Arguments py : simpl never.

(* ================================================================== *)
(** * templates/page_template.py *)
(* ================================================================== *)

Module PageTemplate.

(** ** The record

    [software_info] is a dictionary with a fixed vocabulary of keys; a key
    that is not in the dictionary is [None].  A value that the code inspects
    with [isinstance] is a sum of the shapes it tells apart. *)

(** The value of ['描述'] and of ['额外信息']: a [str] or a list of [str]. *)
Inductive text :=
| Str (s : str)
| Paras (l : list str).

(** A screenshot dictionary, keys ['caption'], ['attribution'], ['url']. *)
Record shot_dict := mk_shot {
  caption : option str;
  attribution : option str;
  shot_url : option str
}.

(** An entry of ['截图']: a dictionary or a bare URL. *)
Inductive screenshot :=
| ShotDict (d : shot_dict)
| ShotStr (s : str).

(** A download dictionary, keys ['url'] and ['code']. *)
Record link_dict := mk_link {
  link_url : option str;
  code : option str
}.

(** An entry of ['下载链接']: a dictionary or a bare URL. *)
Inductive download_link :=
| LinkDict (d : link_dict)
| LinkStr (s : str).

Record software_info := mk_info {
  title : option str;                          (* '标题' *)
  name : option str;                           (* '名称' *)
  version : option str;                        (* '版本' *)
  description : option text;                   (* '描述' *)
  features : option (list str);                (* '功能' *)
  screenshots : option (list screenshot);      (* '截图' *)
  download_links : option (list download_link);(* '下载链接' *)
  extra_info : option text                     (* '额外信息' *)
}.

(** The empty dictionary [{}]. *)
Definition empty_info : software_info :=
  mk_info None None None None None None None None.

(** [d.get(key, default)] *)
Definition dict_get {A : Type} (v : option A) (default : A) : A :=
  match v with
  | Some x => x
  | None => default
  end.

(** [key in d] *)
Definition has_key {A : Type} (v : option A) : bool :=
  match v with
  | Some _ => true
  | None => false
  end.

(** Truthiness of a list. *)
Definition nonempty {A : Type} (l : list A) : bool :=
  match l with
  | [] => false
  | _ => true
  end.

(** [enumerate(l)] *)
Definition enumerate {A : Type} (l : list A) : list (nat * A) :=
  combine (seq 0 (length l)) l.

(** ** generate_wordpress_content, section by section *)

(** 1. Introduction. *)
Definition intro_parts (info : software_info) : list str :=
  [py "<h3>软件介绍</h3>\n"]
  ++ match dict_get (description info) (Str (py "")) with
     | Paras l =>
         if nonempty l
         then map (fun para => py "<p>" ++ para ++ py "</p>\n") l
         else []
     | Str s =>
         if truthy s then [py "<p>" ++ s ++ py "</p>\n"] else []
     end
  ++ [py "\n"].

(** 2. Feature list. *)
Definition feature_parts (info : software_info) : list str :=
  let features := dict_get (features info) [] in
  if nonempty features
  then [py "<h3>功能（使用）说明</h3>\n"; py "<ol>\n"]
       ++ map (fun feature => py " <li>" ++ feature ++ py "</li>\n") features
       ++ [py "</ol>\n"; py "\n"]
  else [].

(** 3. Screenshots: the three parts appended for the entry at index [i]. *)
Definition default_caption (i : nat) : str :=
  py "软件截图 " ++ str_of_nat (i + 1).

Definition screenshot_block (i : nat) (screenshot : screenshot) : list str :=
  match screenshot with
  | ShotDict d =>
      let caption := dict_get (caption d) (default_caption i) in
      let attribution := dict_get (attribution d) (py "") in
      let url := dict_get (shot_url d) (py "") in
      [ if truthy attribution
        then py "[insertimg caption='" ++ caption ++ py "' attribution='"
             ++ attribution ++ py "']"
        else py "[insertimg caption='" ++ caption ++ py "']";
        py "<img src=\x22" ++ url ++ py "\x22 />";
        py "[/insertimg]\n" ]
  | ShotStr s =>
      [ py "[insertimg caption='" ++ default_caption i ++ py "']";
        py "<img src=\x22" ++ s ++ py "\x22 />";
        py "[/insertimg]\n" ]
  end.

Definition screenshot_parts (info : software_info) : list str :=
  let screenshots := dict_get (screenshots info) [] in
  if nonempty screenshots
  then [py "<h3>软件截图</h3>\n"]
       ++ flat_map (fun p => screenshot_block (fst p) (snd p)) (enumerate screenshots)
       ++ [py "\n"]
  else [].

(** 4. Downloads: the short-code of one link, then the parts appended for
    the entry at index [i]. *)
Definition link_shortcode (link_info : download_link) : str :=
  let url := match link_info with
             | LinkDict d => dict_get (link_url d) (py "")
             | LinkStr s => s
             end in
  let code := match link_info with
              | LinkDict d => dict_get (code d) (py "")
              | LinkStr _ => py ""
              end in
  if truthy code && truthy (strip code)
  then py " [link url=\x22" ++ url ++ py "\x22 code=\x22" ++ code ++ py "\x22][/link]"
  else py " [link url=\x22" ++ url ++ py "\x22][/link]".

Definition link_block (i : nat) (link_info : download_link) : list str :=
  link_shortcode link_info
  :: (if (i + 1) mod 4 =? 0 then [py "\n"] else []).

Definition download_parts (info : software_info) : list str :=
  let download_links := dict_get (download_links info) [] in
  if nonempty download_links
  then [py "<h3>软件下载</h3>\n"; py "[downloads]\n"]
       ++ flat_map (fun p => link_block (fst p) (snd p)) (enumerate download_links)
       ++ (if negb (length download_links mod 4 =? 0) then [py "\n"] else [])
       ++ [py "[/downloads]\n"]
  else [].

(** The [for] loop over the links when its index starts at [k], and the
    test that follows it: [download_parts] is these two at index 0. *)
Definition link_loop (k : nat) (links : list download_link) : list str :=
  flat_map (fun p => link_block (fst p) (snd p))
           (combine (seq k (length links)) links).

Definition trailing_break (links : list download_link) : list str :=
  if negb (length links mod 4 =? 0) then [py "\n"] else [].

(** 5. Extra information. *)
Definition extra_parts (info : software_info) : list str :=
  match dict_get (extra_info info) (Str (py "")) with
  | Str s =>
      if truthy s
      then if truthy (strip s)
           then [py "\n"; py "<h3>其他信息</h3>\n"; py "<p>" ++ s ++ py "</p>\n"]
           else []
      else []
  | Paras l =>
      if nonempty l
      then [py "\n"; py "<h3>其他信息</h3>\n"]
           ++ flat_map (fun para =>
                          if truthy para && truthy (strip para)
                          then [py "<p>" ++ para ++ py "</p>\n"]
                          else []) l
      else []
  end.

Definition html_parts (info : software_info) : list str :=
  intro_parts info ++ feature_parts info ++ screenshot_parts info
  ++ download_parts info ++ extra_parts info.

Definition generate_wordpress_content (info : software_info) : str :=
  join (html_parts info).

(** ** parse_download_line: [None] is the empty dictionary it returns for a
    blank line. *)
Definition parse_download_line (line : str) : option link_dict :=
  let line := strip line in
  if negb (truthy line) then None
  else
    match split_ws line with
    | [url] => Some (mk_link (Some (strip url)) (Some (py "")))
    | url :: code :: _ => Some (mk_link (Some (strip url)) (Some (strip code)))
    | [] => None
    end.

(** ** Exceptions

    The body of [parse_config_file] runs inside [try: ... except Exception]:
    a computation either returns or raises. *)
Inductive exn :=
| OSError
| UnicodeDecodeError
| UnicodeEncodeError
| ValueError
| AttributeError.

Inductive result (A : Type) :=
| Ok (a : A)
| Raise (e : exn).

Arguments Ok {A} a.
Arguments Raise {A} e.

Definition bind {A B : Type} (m : result A) (k : A -> result B) : result B :=
  match m with
  | Ok a => k a
  | Raise e => Raise e
  end.

Notation "x <- m ;; k" := (bind m (fun x => k))
  (at level 61, m at next level, right associativity).

(** [a, b = l]: unpacking a list into two names. *)
Definition unpack2 (l : list str) : result (str * str) :=
  match l with
  | [a; b] => Ok (a, b)
  | _ => Raise ValueError
  end.

(** ** parse_config_file: the state of the scan *)
Record pstate := mk_pstate {
  info : software_info;
  current_section : option str;
  temp_downloads : list download_link;
  temp_features : list str;
  temp_screenshots : list screenshot
}.

Definition init_pstate : pstate := mk_pstate empty_info None [] [] [].

Definition with_info (f : software_info -> software_info) (st : pstate) : pstate :=
  mk_pstate (f (info st)) (current_section st) (temp_downloads st)
            (temp_features st) (temp_screenshots st).

Definition with_section (sec : str) (st : pstate) : pstate :=
  mk_pstate (info st) (Some sec) (temp_downloads st)
            (temp_features st) (temp_screenshots st).

Definition add_download (d : download_link) (st : pstate) : pstate :=
  mk_pstate (info st) (current_section st) (temp_downloads st ++ [d])
            (temp_features st) (temp_screenshots st).

Definition add_feature (f : str) (st : pstate) : pstate :=
  mk_pstate (info st) (current_section st) (temp_downloads st)
            (temp_features st ++ [f]) (temp_screenshots st).

Definition add_screenshot (s : screenshot) (st : pstate) : pstate :=
  mk_pstate (info st) (current_section st) (temp_downloads st)
            (temp_features st) (temp_screenshots st ++ [s]).

(** Assignments [software_info[key] = v]. *)
Definition set_title (v : str) (i : software_info) : software_info :=
  mk_info (Some v) (name i) (version i) (description i) (features i)
          (screenshots i) (download_links i) (extra_info i).

Definition set_name (v : str) (i : software_info) : software_info :=
  mk_info (title i) (Some v) (version i) (description i) (features i)
          (screenshots i) (download_links i) (extra_info i).

Definition set_version (v : str) (i : software_info) : software_info :=
  mk_info (title i) (name i) (Some v) (description i) (features i)
          (screenshots i) (download_links i) (extra_info i).

Definition set_description (v : text) (i : software_info) : software_info :=
  mk_info (title i) (name i) (version i) (Some v) (features i)
          (screenshots i) (download_links i) (extra_info i).

Definition set_features (v : list str) (i : software_info) : software_info :=
  mk_info (title i) (name i) (version i) (description i) (Some v)
          (screenshots i) (download_links i) (extra_info i).

Definition set_screenshots (v : list screenshot) (i : software_info) : software_info :=
  mk_info (title i) (name i) (version i) (description i) (features i)
          (Some v) (download_links i) (extra_info i).

Definition set_download_links (v : list download_link) (i : software_info)
  : software_info :=
  mk_info (title i) (name i) (version i) (description i) (features i)
          (screenshots i) (Some v) (extra_info i).

Definition set_extra_info (v : text) (i : software_info) : software_info :=
  mk_info (title i) (name i) (version i) (description i) (features i)
          (screenshots i) (download_links i) (Some v).

(** [current_section == sec] *)
Definition in_section (sec : str) (st : pstate) : bool :=
  match current_section st with
  | Some s => str_eqb s sec
  | None => false
  end.

(** The value of the key ['描述']. *)
Definition parse_description (value : str) : text :=
  if contains (py "||") value
  then Paras (map strip (split (py "||") value))
  else Str value.

(** The dictionary built from a value of the section [软件截图]. *)
Definition parse_screenshot (value : str) : shot_dict :=
  if contains (py "|") value
  then
    match split (py "|") value with
    | p0 :: p1 :: p2 :: _ =>                       (* len(parts) >= 3 *)
        mk_shot (Some (strip p0)) (Some (strip p1)) (Some (strip p2))
    | [p0; p1] =>                                  (* len(parts) == 2 *)
        mk_shot (Some (strip p0)) None (Some (strip p1))
    | _ => mk_shot None None (Some value)
    end
  else mk_shot None None (Some value).

(** [software_info['额外信息'].append(line)], after the list was created if
    the key was missing. *)
Definition append_extra (line : str) (i : software_info) : result software_info :=
  match extra_info i with
  | None => Ok (set_extra_info (Paras [line]) i)
  | Some (Paras l) => Ok (set_extra_info (Paras (l ++ [line])) i)
  | Some (Str _) => Raise AttributeError
  end.

(** One iteration of [for line in lines]. *)
Definition process_line (st : pstate) (line : str) : result pstate :=
  let line := strip line in
  if negb (truthy line) || startswith (py "#") line then Ok st
  else if startswith (py "[") line && endswith (py "]") line
  then Ok (with_section (strip (slice_1_m1 line)) st)
  else if in_section (py "软件信息") st then
    if contains (py "=") line then
      kv <- unpack2 (split1 (py "=") line) ;;
      let key := strip (fst kv) in
      let value := strip (snd kv) in
      if str_eqb key (py "标题") then Ok (with_info (set_title value) st)
      else if str_eqb key (py "名称") then Ok (with_info (set_name value) st)
      else if str_eqb key (py "版本") then Ok (with_info (set_version value) st)
      else if str_eqb key (py "描述")
      then Ok (with_info (set_description (parse_description value)) st)
      else Ok st
    else Ok st
  else if in_section (py "功能介绍") st then
    if contains (py "=") line then
      kv <- unpack2 (split1 (py "=") line) ;;
      Ok (add_feature (strip (snd kv)) st)
    else Ok (add_feature (strip line) st)
  else if in_section (py "软件截图") st then
    if contains (py "=") line then
      kv <- unpack2 (split1 (py "=") line) ;;
      let value := strip (snd kv) in
      Ok (add_screenshot (ShotDict (parse_screenshot value)) st)
    else Ok st
  else if in_section (py "下载链接") st then
    if truthy line && negb (startswith (py "#") line) then
      match parse_download_line line with
      | Some link_info => Ok (add_download (LinkDict link_info) st)
      | None => Ok st
      end
    else Ok st
  else if in_section (py "额外信息") st then
    i <- append_extra line (info st) ;;
    Ok (with_info (fun _ => i) st)
  else Ok st.

(** The loop over the lines. *)
Fixpoint scan (st : pstate) (lines : list str) : result pstate :=
  match lines with
  | [] => Ok st
  | line :: rest => st' <- process_line st line ;; scan st' rest
  end.

(** What follows the loop: the collected lists are stored when they are not
    empty, then the missing scalar fields are filled in. *)
Definition store_lists (st : pstate) : software_info :=
  let i := info st in
  let i := if nonempty (temp_features st)
           then set_features (temp_features st) i else i in
  let i := if nonempty (temp_screenshots st)
           then set_screenshots (temp_screenshots st) i else i in
  if nonempty (temp_downloads st)
  then set_download_links (temp_downloads st) i else i.

Definition fill_defaults (stem : str) (i : software_info) : software_info :=
  let i := if negb (has_key (title i))
           then match name i with
                | Some n => set_title n i
                | None => set_title stem i
                end
           else i in
  let i := if negb (has_key (name i))
           then set_name (dict_get (title i) (py "未命名软件")) i
           else i in
  let i := if negb (has_key (version i))
           then set_version (py "1.0.0") i else i in
  if negb (has_key (description i))
  then set_description (Str (py "")) i else i.

(** The dictionary of the [except] branch. *)
Definition fallback_info (stem : str) : software_info :=
  mk_info (Some stem) (Some (py "未知软件")) (Some (py "1.0.0"))
          (Some (Str (py "解析配置文件出错"))) None None None None.

(** The [try] block.  [read] is the outcome of opening the file and of
    [f.read()]: the text of the file, or the exception raised. *)
Definition try_parse (stem : str) (read : result str) : result software_info :=
  content <- read ;;
  st <- scan init_pstate (split (py "\n") content) ;;
  Ok (fill_defaults stem (store_lists st)).

(** The record [parse_config_file(config_path)] returns, whenever the call
    returns; [stem] is [config_path.stem].  The call itself, with the
    [print] of its [except] branch, is [parse_config_file_call] below. *)
Definition parse_config_file (stem : str) (read : result str) : software_info :=
  match try_parse stem read with
  | Ok i => i
  | Raise _ => fallback_info stem
  end.

(** The console the [except] branch writes to: [exn_text e] is [str(e)],
    and [print msg] returns or raises -- [UnicodeEncodeError] when the
    encoding of the standard output cannot write the text, [OSError] or
    [ValueError] when the standard output is broken or closed. *)
Record console := mk_console {
  exn_text : exn -> str;
  print : str -> result unit
}.

(** The call [parse_config_file(config_path)]: the [try] block, and in the
    [except Exception] branch first the [print] of the message, then the
    fallback dictionary.  Every exception of the model is an [Exception],
    so the branch catches whatever the [try] block raises; an exception
    raised by [print] inside the branch is not caught and leaves the
    function. *)
Definition parse_config_file_call (out : console) (stem : str) (read : result str)
  : result software_info :=
  match try_parse stem read with
  | Ok i => Ok i
  | Raise e =>
      _ <- print out (py "解析配置文件时出错: " ++ exn_text out e) ;;
      Ok (fallback_info stem)
  end.

(** ** get_software_title; [config_path] is the stem of the optional path. *)
Definition clean_title (s : str) : str :=
  replace (py " ") (py "_") (re_sub_class (py "\\/*?:\x22<>|") s).

Definition get_software_title (i : software_info) (config_path : option str) : str :=
  let title := dict_get (title i) (py "") in
  if truthy title then clean_title title
  else
    match name i with
    | Some name => clean_title name
    | None =>
        match config_path with
        | Some stem => stem
        | None => py "software"
        end
    end.

(** ** generate_html_embed: the title of the page and the file-info block.
    The rest of the document is fixed text around [generate_wordpress_content]. *)
Definition page_title (i : software_info) : str :=
  dict_get (title i) (dict_get (name i) (py "软件页面")).

(** The name shown after [生成文件:], without its [.html]. *)
Definition embed_file_token (i : software_info) : str :=
  replace (py " ") (py "_") (dict_get (title i) (py "software")).

Definition file_info_block (i : software_info) : str :=
  py "        <div class=\x22file-info\x22>\n"
  ++ py "            <strong>文件信息：</strong><br>\n"
  ++ py "            软件标题: " ++ dict_get (title i) (py "未设置") ++ py "<br>\n"
  ++ py "            软件名称: " ++ dict_get (name i) (py "未设置") ++ py "<br>\n"
  ++ py "            软件版本: " ++ dict_get (version i) (py "1.0.0") ++ py "<br>\n"
  ++ py "            生成文件: " ++ embed_file_token i ++ py ".html\n"
  ++ py "        </div>\n".

End PageTemplate.

(* ================================================================== *)
(** * build.py *)
(* ================================================================== *)

Module Build.

Import PageTemplate.

(** ** sanitize_filename *)
Definition sanitize_filename (filename : str) : str :=
  let filename := re_sub_class (py "\\/*?:\x22<>|") filename in
  let filename := replace (py " ") (py "_") filename in
  if 100 <? length filename then firstn 100 filename else filename.

(** ** The two regular expressions of generate_pure_content

    A pattern is given by its matcher: the length of the match that starts
    at the head of the text, if there is one.  Both patterns are a fixed
    prefix, blanks (none for the first pattern), [</p>] and an optional line
    feed; the greedy [\s*] never gives a character back, because [</p>]
    does not start with a blank. *)
Fixpoint count_blanks (s : str) : nat :=
  match s with
  | c :: rest => if isspace c then S (count_blanks rest) else 0
  | [] => 0
  end.

Definition optional_newline (s : str) : nat :=
  if startswith (py "\n") s then 1 else 0.

(** [\n\n<p></p>\n?] *)
Definition match_empty_p (s : str) : option nat :=
  if startswith (py "\n\n<p></p>") s
  then Some (9 + optional_newline (skipn 9 s))
  else None.

(** [\n\n<p>\s*</p>\n?] *)
Definition match_blank_p (s : str) : option nat :=
  if startswith (py "\n\n<p>") s
  then
    let k := count_blanks (skipn 5 s) in
    if startswith (py "</p>") (skipn (5 + k) s)
    then Some (5 + k + 4 + optional_newline (skipn (5 + k + 4) s))
    else None
  else None.

(** [re.sub(pattern, '', s)]: the matches are found from left to right and
    do not overlap; [skip] counts the characters of the current match that
    are still to be deleted. *)
Fixpoint re_sub_del (m : str -> option nat) (skip : nat) (s : str) : str :=
  match s with
  | [] => []
  | c :: rest =>
      match skip with
      | S k => re_sub_del m k rest
      | O =>
          match m s with
          | Some (S n) => re_sub_del m n rest
          | _ => c :: re_sub_del m 0 rest
          end
      end
  end.

(** [not extra_info or (isinstance(extra_info, str) and not extra_info.strip())] *)
Definition extra_is_empty (i : software_info) : bool :=
  match dict_get (extra_info i) (Str (py "")) with
  | Str s => negb (truthy s) || negb (truthy (strip s))
  | Paras l => negb (nonempty l)
  end.

(** ** generate_pure_content *)
Definition generate_pure_content (i : software_info) : str :=
  let wp_content := generate_wordpress_content i in
  if extra_is_empty i
  then re_sub_del match_blank_p 0 (re_sub_del match_empty_p 0 wp_content)
  else wp_content.

(** ** The names of the files written by generate_html_file,
    generate_preview_file and generate_content. *)
Definition safe_title (i : software_info) : str :=
  sanitize_filename (dict_get (title i) (py "software")).

Definition html_filename (i : software_info) : str :=
  safe_title i ++ py ".html".

Definition preview_filename (i : software_info) : str :=
  safe_title i ++ py "_preview.html".

End Build.

(* ================================================================== *)
(** * The specification's sanitizer, in its own words *)
(* ================================================================== *)

Module Spec.

(** The fixed character set: backslash, slash, colon, asterisk, question
    mark, double quote, less-than, greater-than and vertical bar. *)
Definition stripped_set : list char :=
  [92; 47; 58; 42; 63; 34; 60; 62; 124]%N.

Definition is_stripped (c : char) : bool :=
  existsb (N.eqb c) stripped_set.

Definition space_to_underscore (c : char) : char :=
  if (c =? 32)%N then 95%N else c.

(** Strip the set, replace spaces with underscores, truncate to 100. *)
Definition sanitize (name : str) : str :=
  firstn 100 (map space_to_underscore (filter (fun c => negb (is_stripped c)) name)).

(** The batches of four of the downloads block. *)
Fixpoint batches4 {A : Type} (l : list A) : list (list A) :=
  match l with
  | a :: b :: c :: d :: rest => [a; b; c; d] :: batches4 rest
  | [] => []
  | _ => [l]
  end.

(** Every batch but the last holds four entries; the last holds one to
    four. *)
Fixpoint full_but_last {A : Type} (bs : list (list A)) : Prop :=
  match bs with
  | [] => True
  | g :: rest =>
      match rest with
      | [] => 1 <= length g <= 4
      | _ => length g = 4 /\ full_but_last rest
      end
  end.

(** ** Notions used to state the parser's properties *)

Import PageTemplate.

(** The name a line announces when it is a section title: not blank, not a
    comment, of the shape [[Name]]. *)
Definition section_header (raw : str) : option str :=
  let line := strip raw in
  if negb (truthy line) || startswith (py "#") line then None
  else if startswith (py "[") line && endswith (py "]") line
  then Some (strip (slice_1_m1 line))
  else None.

(** A line that reaches the section handling: not blank, not a comment,
    not a section title. *)
Definition content_line (raw : str) : bool :=
  let line := strip raw in
  negb (negb (truthy line) || startswith (py "#") line)
  && negb (startswith (py "[") line && endswith (py "]") line).

Definition announces (sec : str) (raw : str) : bool :=
  match section_header raw with
  | Some s => str_eqb s sec
  | None => false
  end.

(** The text has a section [sec]: one of its lines announces it. *)
Definition has_section (sec : str) (content : str) : bool :=
  existsb (announces sec) (split (py "\n") content).

(** The extra notes of a record, when present, are a non-empty list of
    strings none of which is blank after trimming. *)
Definition notes_nonblank (i : software_info) : Prop :=
  match extra_info i with
  | None => True
  | Some (Paras l) => l <> [] /\ Forall (fun e => strip e <> []) l
  | Some (Str _) => False
  end.

(** The four scalar keys are in the dictionary.  Nothing is said of their
    values: the line [标题 =] gives the empty string as title. *)
Definition has_scalar_keys (i : software_info) : Prop :=
  title i <> None /\ name i <> None /\ version i <> None /\ description i <> None.

(** The four scalar fields, as they stand. *)
Definition scalars (i : software_info) : option str * option str * option str * option text :=
  (title i, name i, version i, description i).

End Spec.

(* ================================================================== *)
(** * Facts about the string operations *)
(* ================================================================== *)

Section StrFacts.

Lemma char_eqb_eq (a b : char) : char_eqb a b = true <-> a = b.
Proof. unfold char_eqb. apply N.eqb_eq. Qed.

Lemma char_eqb_refl (a : char) : char_eqb a a = true.
Proof. apply char_eqb_eq. reflexivity. Qed.

Lemma char_eqb_neq (a b : char) : a <> b -> char_eqb a b = false.
Proof. unfold char_eqb. intro H. apply N.eqb_neq. exact H. Qed.

Lemma str_eqb_eq (a b : str) : str_eqb a b = true <-> a = b.
Proof.
  revert b. induction a as [|x a IH]; intros [|y b]; simpl; split; intro H;
    try reflexivity; try discriminate.
  - apply andb_true_iff in H. destruct H as [H1 H2].
    apply char_eqb_eq in H1. apply IH in H2. subst. reflexivity.
  - injection H as -> ->. rewrite char_eqb_refl. simpl. apply IH. reflexivity.
Qed.

Lemma str_eqb_refl (a : str) : str_eqb a a = true.
Proof. apply str_eqb_eq. reflexivity. Qed.

(** *** startswith and contains *)

Lemma startswith_app (p s : str) : startswith p (p ++ s) = true.
Proof.
  induction p as [|x p IH]; simpl.
  - reflexivity.
  - rewrite char_eqb_refl. exact IH.
Qed.

Lemma startswith_head_neq (d x : char) (p s : str) :
  x <> d -> startswith (d :: p) (x :: s) = false.
Proof.
  intro H. simpl. rewrite char_eqb_neq; [reflexivity | congruence].
Qed.

Lemma contains_here (sub s : str) : contains sub (sub ++ s) = true.
Proof.
  destruct sub as [|x sub]; destruct s as [|y s]; simpl;
    rewrite ?char_eqb_refl, ?startswith_app; reflexivity.
Qed.

Lemma contains_later (sub a s : str) :
  contains sub s = true -> contains sub (a ++ s) = true.
Proof.
  intro H. induction a as [|x a IH]; simpl.
  - exact H.
  - simpl in IH. rewrite IH. apply orb_true_r.
Qed.

Lemma contains_middle (sub a s : str) : contains sub (a ++ sub ++ s) = true.
Proof. apply contains_later. apply contains_here. Qed.

Lemma contains_free (d : char) (p s : str) :
  ~ In d s -> contains (d :: p) s = false.
Proof.
  induction s as [|x s IH]; intro H.
  - reflexivity.
  - simpl in H.
    change (contains (d :: p) (x :: s))
      with (startswith (d :: p) (x :: s) || contains (d :: p) s).
    rewrite startswith_head_neq by (intro E; apply H; left; exact E).
    simpl. apply IH. intro E. apply H. right. exact E.
Qed.

(** *** split *)

Lemma split_aux_skip (sep x : str) (cur s : str) :
  split_aux sep (length x) cur (x ++ s) = split_aux sep 0 cur s.
Proof.
  induction x as [|c x IH]; simpl.
  - destruct s; reflexivity.
  - exact IH.
Qed.

Lemma split_aux_free (d : char) (p a cur s : str) :
  ~ In d a ->
  split_aux (d :: p) 0 cur (a ++ s) = split_aux (d :: p) 0 (rev a ++ cur) s.
Proof.
  revert cur. induction a as [|x a IH]; intros cur H.
  - reflexivity.
  - simpl in H.
    change ((x :: a) ++ s) with (x :: (a ++ s)).
    cbn [split_aux].
    rewrite startswith_head_neq by (intro E; apply H; left; exact E).
    rewrite IH by (intro E; apply H; right; exact E).
    simpl. rewrite <- app_assoc. reflexivity.
Qed.

Lemma split_aux_sep (d : char) (p cur s : str) :
  split_aux (d :: p) 0 cur ((d :: p) ++ s)
  = rev cur :: split_aux (d :: p) 0 [] s.
Proof.
  change ((d :: p) ++ s) with (d :: (p ++ s)).
  cbn [split_aux].
  change (d :: p ++ s) with ((d :: p) ++ s).
  rewrite startswith_app.
  f_equal.
  replace (length (d :: p) - 1) with (length p) by (simpl; lia).
  apply split_aux_skip.
Qed.

Lemma split_aux_end (sep cur : str) : split_aux sep 0 cur [] = [rev cur].
Proof. reflexivity. Qed.

(** A piece free of the first character of the separator, then the
    separator: the piece is cut off. *)
Lemma split_cons_piece (d : char) (p a s : str) :
  ~ In d a ->
  split (d :: p) (a ++ (d :: p) ++ s) = a :: split (d :: p) s.
Proof.
  intro H. unfold split.
  rewrite split_aux_free by exact H.
  rewrite split_aux_sep. rewrite app_nil_r, rev_involutive. reflexivity.
Qed.

Lemma split_last_piece (d : char) (p a : str) :
  ~ In d a -> split (d :: p) a = [a].
Proof.
  intro H. unfold split.
  rewrite <- (app_nil_r a) at 1.
  rewrite split_aux_free by exact H.
  rewrite split_aux_end, app_nil_r, rev_involutive. reflexivity.
Qed.

(** *** split with a limit of one cut *)

Lemma split1_aux_two (d : char) (p cur s : str) :
  contains (d :: p) s = true ->
  exists a b, split1_aux (d :: p) cur s = [a; b].
Proof.
  revert cur. induction s as [|x s IH]; intros cur H.
  - discriminate H.
  - change (contains (d :: p) (x :: s))
      with (startswith (d :: p) (x :: s) || contains (d :: p) s) in H.
    cbn [split1_aux].
    destruct (startswith (d :: p) (x :: s)).
    + eexists. eexists. reflexivity.
    + simpl in H. apply IH. exact H.
Qed.

Lemma unpack_split1 (d : char) (p s : str) :
  contains (d :: p) s = true ->
  exists a b, split1 (d :: p) s = [a; b].
Proof. apply split1_aux_two. Qed.

(** *** strip *)

Lemma lstrip_length (s : str) : length (lstrip s) <= length s.
Proof.
  induction s as [|c s IH]; simpl.
  - lia.
  - destruct (isspace c); simpl; lia.
Qed.

Lemma lstrip_blanks (s : str) :
  exists w, s = w ++ lstrip s /\ Forall (fun c => isspace c = true) w.
Proof.
  induction s as [|c s [w [E F]]]; simpl.
  - exists []. split; [reflexivity | constructor].
  - destruct (isspace c) eqn:Hc.
    + exists (c :: w). split.
      * simpl. f_equal. exact E.
      * constructor; assumption.
    + exists []. split; [reflexivity | constructor].
Qed.

Lemma lstrip_fixed_head (c : char) (s : str) :
  lstrip (c :: s) = c :: s -> isspace c = false.
Proof.
  simpl. destruct (isspace c); [|reflexivity].
  intro E. pose proof (lstrip_length s) as L. rewrite E in L. simpl in L. lia.
Qed.

Lemma lstrip_idem (s : str) : lstrip (lstrip s) = lstrip s.
Proof.
  induction s as [|c s IH]; simpl.
  - reflexivity.
  - destruct (isspace c) eqn:Hc.
    + exact IH.
    + simpl. rewrite Hc. reflexivity.
Qed.

Lemma rstrip_blanks (s : str) :
  exists w, s = rstrip s ++ w /\ Forall (fun c => isspace c = true) w.
Proof.
  destruct (lstrip_blanks (rev s)) as [w [E F]].
  exists (rev w). split.
  - unfold rstrip. rewrite <- rev_app_distr, <- E, rev_involutive. reflexivity.
  - apply Forall_rev. exact F.
Qed.

Lemma lstrip_rstrip (s : str) : lstrip s = s -> lstrip (rstrip s) = rstrip s.
Proof.
  intro H. destruct (rstrip_blanks s) as [w [E _]].
  destruct (rstrip s) as [|c r] eqn:R.
  - reflexivity.
  - rewrite E in H. simpl in H. change (c :: r ++ w) with (c :: (r ++ w)) in H.
    assert (isspace c = false) as Hc by (apply (lstrip_fixed_head (c := c) (s := r ++ w)); exact H).
    simpl. rewrite Hc. reflexivity.
Qed.

Lemma rstrip_idem (s : str) : rstrip (rstrip s) = rstrip s.
Proof.
  unfold rstrip. rewrite rev_involutive, lstrip_idem. reflexivity.
Qed.

(** [strip] leaves a stripped string as it is. *)
Lemma strip_idem (s : str) : strip (strip s) = strip s.
Proof.
  unfold strip.
  rewrite lstrip_rstrip by apply lstrip_idem.
  apply rstrip_idem.
Qed.

End StrFacts.

(* ================================================================== *)
(** * The filename sanitizer *)
(* ================================================================== *)

Section Sanitizer.

Import PageTemplate.

Lemma forbidden_class : py "\\/*?:\x22<>|" = [92; 47; 42; 63; 58; 34; 60; 62; 124]%N.
Proof. reflexivity. Qed.

Lemma in_class_is_stripped (c : char) :
  in_class (py "\\/*?:\x22<>|") c = Spec.is_stripped c.
Proof.
  rewrite forbidden_class. unfold in_class, Spec.is_stripped, Spec.stripped_set, char_eqb.
  simpl.
  destruct (c =? 92)%N, (c =? 47)%N, (c =? 42)%N, (c =? 63)%N, (c =? 58)%N,
    (c =? 34)%N, (c =? 60)%N, (c =? 62)%N, (c =? 124)%N; reflexivity.
Qed.

Lemma re_sub_class_filter (s : str) :
  re_sub_class (py "\\/*?:\x22<>|") s
  = filter (fun c => negb (Spec.is_stripped c)) s.
Proof.
  unfold re_sub_class. apply filter_ext. intro c.
  rewrite in_class_is_stripped. reflexivity.
Qed.

Lemma replace_space_map (s : str) :
  replace (py " ") (py "_") s = map Spec.space_to_underscore s.
Proof.
  change (py " ") with [32%N]. change (py "_") with [95%N].
  unfold replace. induction s as [|c s IH].
  - reflexivity.
  - cbn [replace_aux map startswith]. unfold Spec.space_to_underscore at 1.
    unfold char_eqb. rewrite (N.eqb_sym 32 c), andb_true_r.
    destruct (c =? 32)%N; cbn [length app Nat.sub]; rewrite IH; reflexivity.
Qed.

(** The cleaning shared by [sanitize_filename] and [get_software_title]. *)
Lemma clean_title_map_filter (s : str) :
  clean_title s
  = map Spec.space_to_underscore (filter (fun c => negb (Spec.is_stripped c)) s).
Proof.
  unfold clean_title. rewrite replace_space_map, re_sub_class_filter. reflexivity.
Qed.

Lemma truncate_firstn (s : str) :
  (if 100 <? length s then firstn 100 s else s) = firstn 100 s.
Proof.
  destruct (100 <? length s) eqn:E.
  - reflexivity.
  - apply Nat.ltb_ge in E. symmetry. apply firstn_all2. exact E.
Qed.

Lemma sanitize_filename_refines (filename : str) :
  Build.sanitize_filename filename = Spec.sanitize filename.
Proof.
  unfold Build.sanitize_filename, Spec.sanitize.
  rewrite truncate_firstn, replace_space_map, re_sub_class_filter. reflexivity.
Qed.

Lemma Forall_firstn {A : Type} (P : A -> Prop) (n : nat) (l : list A) :
  Forall P l -> Forall P (firstn n l).
Proof.
  intro H. revert n. induction H as [|x l Hx Hl IH]; intros [|n]; simpl;
    constructor; auto.
Qed.

Lemma cleaned_chars (s : str) :
  Forall (fun c => Spec.is_stripped c = false /\ c <> 32%N)
         (map Spec.space_to_underscore (filter (fun c => negb (Spec.is_stripped c)) s)).
Proof.
  apply Forall_forall. intros c Hc.
  apply in_map_iff in Hc. destruct Hc as [x [E Hx]].
  apply filter_In in Hx. destruct Hx as [_ Hx].
  apply negb_true_iff in Hx.
  unfold Spec.space_to_underscore in E.
  destruct (x =? 32)%N eqn:X; subst c.
  - split; [reflexivity | discriminate].
  - split; [exact Hx | apply N.eqb_neq; exact X].
Qed.

(** C8.  [sanitize_filename] is the sanitizer of the specification: it
    deletes every backslash, slash, colon, asterisk, question mark, double
    quote, angle bracket and vertical bar, turns every space into an
    underscore, keeps every other character in place, and cuts the result
    at 100 characters.  Hence no character of the result is in the stripped
    set or is a space, the result has at most 100 characters, and
    ["My:App?Name 2024"] becomes ["MyAppName_2024"]. *)
Theorem sanitize_filename_spec :
  (forall filename : str,
      Build.sanitize_filename filename = Spec.sanitize filename
      /\ Forall (fun c => Spec.is_stripped c = false /\ c <> 32%N)
                (Build.sanitize_filename filename)
      /\ length (Build.sanitize_filename filename) <= 100)
  /\ Build.sanitize_filename (py "My:App?Name 2024") = py "MyAppName_2024".
Proof.
  split.
  - intro filename. rewrite sanitize_filename_refines. unfold Spec.sanitize.
    split; [reflexivity | split].
    + apply Forall_firstn. apply cleaned_chars.
    + rewrite length_firstn. lia.
  - reflexivity.
Qed.

(** Where they do agree: on a title that is still at most 100 characters
    long once cleaned, [get_software_title] returns what [sanitize_filename]
    returns. *)
Lemma get_software_title_short (i : software_info) (t : str) (path : option str) :
  title i = Some t -> t <> [] ->
  length (clean_title t) <= 100 ->
  get_software_title i path = Build.sanitize_filename t.
Proof.
  intros Ht Hne Hlen. unfold get_software_title. rewrite Ht. simpl dict_get.
  destruct t as [|c t]; [contradiction|]. simpl truthy. cbv iota.
  rewrite sanitize_filename_refines. unfold Spec.sanitize.
  rewrite clean_title_map_filter in *.
  symmetry. apply firstn_all2. exact Hlen.
Qed.

(** C3.  The three places do not agree.  For the title ["My:App"] the file
    is written under the token ["MyApp"] (which is the sanitizer's), while
    the preview document announces ["My:App"]: the interpolation only
    replaces spaces.  For a title of 101 letters [get_software_title]
    returns 101 characters and [sanitize_filename] 100. *)
Theorem filename_tokens_disagree :
  let i := set_title (py "My:App") empty_info in
  let long := set_title (repeat 97%N 101) empty_info in
  Build.safe_title i = py "MyApp"
  /\ Build.html_filename i = py "MyApp.html"
  /\ Spec.sanitize (py "My:App") = py "MyApp"
  /\ embed_file_token i = py "My:App"
  /\ contains (py "生成文件: My:App.html") (file_info_block i) = true
  /\ get_software_title i None = py "MyApp"
  /\ length (Build.safe_title long) = 100
  /\ length (Spec.sanitize (repeat 97%N 101)) = 100
  /\ length (get_software_title long None) = 101.
Proof. vm_compute. repeat split. Qed.

End Sanitizer.

(* ================================================================== *)
(** * The downloads block *)
(* ================================================================== *)

Section Downloads.

Import PageTemplate.

(** Induction four elements at a time. *)
Lemma list_ind4 {A : Type} (P : list A -> Prop) :
  P [] ->
  (forall a, P [a]) ->
  (forall a b, P [a; b]) ->
  (forall a b c, P [a; b; c]) ->
  (forall a b c d rest, P rest -> P (a :: b :: c :: d :: rest)) ->
  forall l, P l.
Proof.
  intros H0 H1 H2 H3 H4 l.
  assert (P l /\ (forall a, P (a :: l)) /\ (forall a b, P (a :: b :: l))
          /\ (forall a b c, P (a :: b :: c :: l))) as H.
  { induction l as [|x l [I0 [I1 [I2 I3]]]].
    - repeat split; auto.
    - repeat split; auto. }
  apply H.
Qed.

Lemma mod4_shift (k j : nat) : k mod 4 = 0 -> (k + j) mod 4 = j mod 4.
Proof.
  intro H. rewrite Nat.Div0.add_mod, H, Nat.add_0_l. apply Nat.Div0.mod_mod.
Qed.

Lemma mod4_not_fourth (k j : nat) :
  k mod 4 = 0 -> j = 1 \/ j = 2 \/ j = 3 -> ((k + j) mod 4 =? 0) = false.
Proof.
  intros H J. rewrite mod4_shift by exact H.
  destruct J as [-> | [-> | ->]]; reflexivity.
Qed.

Lemma mod4_fourth (k : nat) : k mod 4 = 0 -> ((k + 4) mod 4 =? 0) = true.
Proof. intro H. rewrite mod4_shift by exact H. reflexivity. Qed.

Lemma link_loop_cons (k : nat) (l : download_link) (links : list download_link) :
  link_loop k (l :: links)
  = link_shortcode l
      :: (if (k + 1) mod 4 =? 0 then [py "\n"] else []) ++ link_loop (S k) links.
Proof. reflexivity. Qed.

Lemma link_loop_nil (k : nat) : link_loop k [] = [].
Proof. reflexivity. Qed.

Lemma trailing_break_4 (a b c d : download_link) (rest : list download_link) :
  trailing_break (a :: b :: c :: d :: rest) = trailing_break rest.
Proof.
  unfold trailing_break. cbn [length].
  replace (S (S (S (S (length rest))))) with (length rest + 1 * 4) by lia.
  rewrite Nat.Div0.mod_add. reflexivity.
Qed.

(** The loop with its index test and the closing test on the length write
    the links in lines of four. *)
Lemma link_loop_batches (links : list download_link) :
  forall k, k mod 4 = 0 ->
  link_loop k links ++ trailing_break links
  = flat_map (fun g => map link_shortcode g ++ [py "\n"]) (Spec.batches4 links).
Proof.
  induction links as [| a | a b | a b c | a b c d rest IH] using list_ind4;
    intros k Hk.
  - reflexivity.
  - rewrite link_loop_cons, link_loop_nil.
    rewrite (@mod4_not_fourth k 1 Hk) by auto. reflexivity.
  - rewrite !link_loop_cons, link_loop_nil.
    rewrite (@mod4_not_fourth k 1 Hk) by auto.
    replace (S k + 1) with (k + 2) by lia.
    rewrite (@mod4_not_fourth k 2 Hk) by auto. reflexivity.
  - rewrite !link_loop_cons, link_loop_nil.
    rewrite (@mod4_not_fourth k 1 Hk) by auto.
    replace (S k + 1) with (k + 2) by lia.
    replace (S (S k) + 1) with (k + 3) by lia.
    rewrite (@mod4_not_fourth k 2 Hk), (@mod4_not_fourth k 3 Hk) by auto. reflexivity.
  - rewrite !link_loop_cons, trailing_break_4.
    rewrite (@mod4_not_fourth k 1 Hk) by auto.
    replace (S k + 1) with (k + 2) by lia.
    replace (S (S k) + 1) with (k + 3) by lia.
    replace (S (S (S k)) + 1) with (k + 4) by lia.
    rewrite (@mod4_not_fourth k 2 Hk), (@mod4_not_fourth k 3 Hk), (@mod4_fourth k Hk) by auto.
    cbn [app Spec.batches4 flat_map map].
    do 4 f_equal. cbn [app]. f_equal.
    apply IH.
    replace (S (S (S (S k)))) with (k + 4) by lia.
    rewrite mod4_shift by exact Hk. reflexivity.
Qed.

Lemma batches4_concat {A : Type} (l : list A) : concat (Spec.batches4 l) = l.
Proof.
  induction l as [| a | a b | a b c | a b c d rest IH] using list_ind4;
    try reflexivity.
  cbn [Spec.batches4 concat app]. rewrite IH. reflexivity.
Qed.

Lemma batches4_full {A : Type} (l : list A) : Spec.full_but_last (Spec.batches4 l).
Proof.
  induction l as [| a | a b | a b c | a b c d rest IH] using list_ind4;
    try (simpl; lia).
  cbn [Spec.batches4].
  destruct (Spec.batches4 rest) as [|g gs] eqn:E.
  - simpl. lia.
  - split; [reflexivity | exact IH].
Qed.

Lemma download_parts_loop (info : software_info) (links : list download_link) :
  download_links info = Some links -> links <> [] ->
  download_parts info
  = [py "<h3>软件下载</h3>\n"; py "[downloads]\n"]
    ++ (link_loop 0 links ++ trailing_break links)
    ++ [py "[/downloads]\n"].
Proof.
  intros E Hne. unfold download_parts. rewrite E. cbn [dict_get].
  destruct links as [|l links]; [contradiction|].
  cbn [nonempty]. unfold link_loop, trailing_break, enumerate.
  rewrite <- !app_assoc. reflexivity.
Qed.

End Downloads.

(* ================================================================== *)
(** * The parser *)
(* ================================================================== *)

Section Parser.

Import PageTemplate.

Lemma In_lstrip (c : char) (s : str) : In c (lstrip s) -> In c s.
Proof.
  intro H. destruct (lstrip_blanks s) as [w [E _]]. rewrite E.
  apply in_or_app. right. exact H.
Qed.

Lemma In_rstrip (c : char) (s : str) : In c (rstrip s) -> In c s.
Proof.
  intro H. destruct (rstrip_blanks s) as [w [E _]]. rewrite E.
  apply in_or_app. left. exact H.
Qed.

Lemma In_strip (c : char) (s : str) : In c (strip s) -> In c s.
Proof. intro H. apply In_lstrip. apply In_rstrip. exact H. Qed.

Lemma truthy_true (s : str) : truthy s = true <-> s <> [].
Proof. destruct s; simpl; split; intro; congruence. Qed.

Lemma unpack_eq (line : str) :
  contains (py "=") line = true ->
  exists a b, split1 (py "=") line = [a; b].
Proof. change (py "=") with [61%N]. apply unpack_split1. Qed.

(** Case analysis on one iteration of the loop, driven by the equation [H]
    that names its result. *)
Ltac line_cases H :=
  unfold process_line in H; cbv zeta in H;
  repeat match type of H with
    | (if ?b then _ else _) = _ => destruct b eqn:?
    | bind (unpack2 (split1 (py "=") ?l)) _ = _ =>
        let a := fresh "a" in
        let b := fresh "b" in
        let E := fresh "E" in
        match goal with
        | Hc : contains (py "=") l = true |- _ =>
            destruct (@unpack_eq l Hc) as [a [b E]];
            rewrite E in H; cbn [unpack2 bind fst snd] in H
        end
    | match parse_download_line ?l with _ => _ end = _ =>
        destruct (parse_download_line l)
    end.

Lemma not_skipped (line : str) :
  negb (truthy line) || startswith (py "#") line = false -> line <> [].
Proof.
  intro H. apply orb_false_iff in H. destruct H as [H _].
  apply negb_false_iff in H. apply truthy_true. exact H.
Qed.

Lemma append_extra_ok (line : str) (i : software_info) :
  Spec.notes_nonblank i -> strip line <> [] ->
  exists i', append_extra line i = Ok i'
             /\ Spec.notes_nonblank i'
             /\ Spec.scalars i' = Spec.scalars i.
Proof.
  unfold Spec.notes_nonblank, append_extra. intros W L.
  destruct (extra_info i) as [[s | l]|] eqn:E.
  - contradiction.
  - eexists. split; [reflexivity|]. split; [|reflexivity].
    cbn. split.
    + intro F. apply app_eq_nil in F. destruct F as [_ F]. discriminate F.
    + apply Forall_app. split; [apply W | constructor; [exact L | constructor]].
  - eexists. split; [reflexivity|]. split; [|reflexivity].
    cbn. split; [discriminate | constructor; [exact L | constructor]].
Qed.

(** One iteration never raises, keeps the notes free of blank entries,
    changes the section exactly on a section title, and touches the scalar
    fields only inside [软件信息]. *)
Lemma process_line_facts (st : pstate) (raw : str) :
  Spec.notes_nonblank (info st) ->
  exists st',
    process_line st raw = Ok st'
    /\ Spec.notes_nonblank (info st')
    /\ current_section st'
       = match Spec.section_header raw with
         | Some s => Some s
         | None => current_section st
         end
    /\ (in_section (py "软件信息") st = false ->
        Spec.scalars (info st') = Spec.scalars (info st)).
Proof.
  intro W.
  destruct (process_line st raw) as [st' | e] eqn:H.
  - exists st'. split; [reflexivity|].
    unfold Spec.section_header.
    line_cases H;
      try (injection H as <-; repeat split; intros;
           solve [assumption | reflexivity | congruence]).
    assert (strip (strip raw) <> []) as L
        by (rewrite strip_idem; eapply not_skipped; eassumption).
    destruct (@append_extra_ok (strip raw) (info st) W L) as [i' [E [W' S']]].
    rewrite E in H. cbn [bind] in H. injection H as <-.
    split; [exact W' | split; [reflexivity | intros _; exact S']].
  - exfalso.
    line_cases H; try discriminate H.
    assert (strip (strip raw) <> []) as L
        by (rewrite strip_idem; eapply not_skipped; eassumption).
    destruct (@append_extra_ok (strip raw) (info st) W L) as [i' [E _]].
    rewrite E in H. discriminate H.
Qed.

(** The whole loop: it never raises, and the two invariants of one
    iteration carry over. *)
Lemma scan_facts (lines : list str) :
  forall st : pstate,
    Spec.notes_nonblank (info st) ->
    exists st',
      scan st lines = Ok st'
      /\ Spec.notes_nonblank (info st')
      /\ (in_section (py "软件信息") st = false ->
          existsb (Spec.announces (py "软件信息")) lines = false ->
          Spec.scalars (info st') = Spec.scalars (info st)).
Proof.
  induction lines as [|raw lines IH]; intros st W.
  - exists st. repeat split; auto.
  - destruct (@process_line_facts st raw W) as [st1 [E1 [W1 [C1 S1]]]].
    destruct (IH st1 W1) as [st' [E' [W' S']]].
    exists st'. cbn [scan]. rewrite E1. cbn [bind].
    split; [exact E' | split; [exact W'|]].
    intros Hsec Hno. cbn [existsb] in Hno.
    apply orb_false_iff in Hno. destruct Hno as [Hraw Hrest].
    rewrite S'; [apply S1; exact Hsec | | exact Hrest].
    unfold in_section. rewrite C1.
    unfold Spec.announces in Hraw.
    destruct (Spec.section_header raw); [exact Hraw | exact Hsec].
Qed.

Lemma store_lists_scalars (st : pstate) :
  Spec.scalars (store_lists st) = Spec.scalars (info st).
Proof.
  unfold store_lists.
  destruct (nonempty (temp_features st)), (nonempty (temp_screenshots st)),
    (nonempty (temp_downloads st)); reflexivity.
Qed.

Lemma store_lists_extra (st : pstate) :
  extra_info (store_lists st) = extra_info (info st).
Proof.
  unfold store_lists.
  destruct (nonempty (temp_features st)), (nonempty (temp_screenshots st)),
    (nonempty (temp_downloads st)); reflexivity.
Qed.

Lemma fill_defaults_extra (stem : str) (i : software_info) :
  extra_info (fill_defaults stem i) = extra_info i.
Proof.
  destruct i as [[t|] [n|] [v|] [d|] f s dl e]; reflexivity.
Qed.

Lemma fill_defaults_keys (stem : str) (i : software_info) :
  Spec.has_scalar_keys (fill_defaults stem i).
Proof.
  destruct i as [[t|] [n|] [v|] [d|] f s dl e];
    unfold Spec.has_scalar_keys; cbn; repeat split; discriminate.
Qed.

(** The defaults when the scan found none of the four scalar fields. *)
Lemma fill_defaults_none (stem : str) (i : software_info) :
  Spec.scalars i = (None, None, None, None) ->
  Spec.scalars (fill_defaults stem i)
  = (Some stem, Some stem, Some (py "1.0.0"), Some (Str (py ""))).
Proof.
  destruct i as [t n v d f s dl e]. unfold Spec.scalars. cbn [title name version description].
  intro H. injection H as -> -> -> ->. reflexivity.
Qed.

(** When the file was read, the [try] block returns. *)
Lemma try_parse_ok (stem content : str) :
  exists st,
    scan init_pstate (split (py "\n") content) = Ok st
    /\ try_parse stem (Ok content) = Ok (fill_defaults stem (store_lists st))
    /\ Spec.notes_nonblank (info st)
    /\ (Spec.has_section (py "软件信息") content = false ->
        Spec.scalars (info st) = (None, None, None, None)).
Proof.
  destruct (@scan_facts (split (py "\n") content) init_pstate I) as [st [E [W S]]].
  exists st. split; [exact E|]. split.
  - unfold try_parse. cbn [bind]. rewrite E. reflexivity.
  - split; [exact W|]. intro H. apply S; [reflexivity | exact H].
Qed.

(** C2, as amended.  When no line of the text announces the section
    [软件信息], the record has the source identifier as its title and -- the
    name being copied from the title -- as its name too; its version is
    ["1.0.0"] and its description the empty string. *)
Theorem defaults_without_software_info (stem content : str) :
  Spec.has_section (py "软件信息") content = false ->
  let r := parse_config_file stem (Ok content) in
  title r = Some stem
  /\ name r = Some stem
  /\ version r = Some (py "1.0.0")
  /\ description r = Some (Str (py "")).
Proof.
  intros H r. subst r.
  destruct (try_parse_ok stem content) as [st [_ [E [_ S]]]].
  unfold parse_config_file. rewrite E.
  pose proof (@fill_defaults_none stem (store_lists st)) as D.
  rewrite store_lists_scalars in D. specialize (D (S H)).
  unfold Spec.scalars in D. injection D as -> -> -> ->. repeat split.
Qed.

(** A text with a feature list and notes, and no [软件信息]. *)
Lemma defaults_without_software_info_witness :
  let content := py "# demo\n[功能介绍]\n1 = Export to CSV\n[额外信息]\nfree text" in
  let r := parse_config_file (py "demo") (Ok content) in
  title r = Some (py "demo")
  /\ name r = Some (py "demo")
  /\ version r = Some (py "1.0.0")
  /\ description r = Some (Str (py "")).
Proof.
  intros content r.
  apply (@defaults_without_software_info (py "demo") content).
  reflexivity.
Defined.

(** C2, as stated, fails: on the empty text read from [app.info] the name is
    ["app"], neither ["未知软件"] (the name of the fallback record) nor
    ["未命名软件"] (the default of the lookup, which is never used because
    the title was set just before). *)
Lemma name_default_is_not_unknown :
  ~ (forall stem content : str,
        Spec.has_section (py "软件信息") content = false ->
        let r := parse_config_file stem (Ok content) in
        title r = Some stem
        /\ (name r = Some (py "未知软件") \/ name r = Some (py "未命名软件"))
        /\ version r = Some (py "1.0.0")).
Proof.
  intro H. specialize (H (py "app") (py "") eq_refl).
  destruct H as [_ [[H | H] _]]; vm_compute in H; discriminate H.
Qed.

(** C10.  A record returned by the [try] block -- a parse that did not fall
    back -- has extra notes that are absent or a non-empty list of strings,
    each of them non-empty after trimming. *)
Theorem extra_notes_never_blank (stem : str) (read : result str) (i : software_info) :
  try_parse stem read = Ok i ->
  parse_config_file stem read = i /\ Spec.notes_nonblank i.
Proof.
  intro H. split.
  - unfold parse_config_file. rewrite H. reflexivity.
  - destruct read as [content | e]; [|discriminate H].
    destruct (try_parse_ok stem content) as [st [_ [E [W _]]]].
    rewrite E in H. injection H as <-.
    unfold Spec.notes_nonblank in *.
    rewrite fill_defaults_extra, store_lists_extra. exact W.
Qed.

(** Notes with blank lines and a comment between the entries. *)
Lemma extra_notes_never_blank_witness :
  let content := py "[额外信息]\n  first note  \n\n   \n# comment\nsecond note\n" in
  let i := fill_defaults (py "demo")
             (set_extra_info (Paras [py "first note"; py "second note"]) empty_info) in
  parse_config_file (py "demo") (Ok content) = i /\ Spec.notes_nonblank i.
Proof.
  intros content i.
  apply (@extra_notes_never_blank (py "demo") (Ok content) i).
  reflexivity.
Defined.

(** *** Lines without an equals sign *)

Lemma contains_char_false (d : char) (s : str) :
  contains [d] s = false -> ~ In d s.
Proof.
  induction s as [|x s IH]; intros H F.
  - exact F.
  - change (contains [d] (x :: s))
      with (startswith [d] (x :: s) || contains [d] s) in H.
    apply orb_false_iff in H. destruct H as [H1 H2].
    destruct F as [F | F].
    + subst x. simpl in H1. rewrite char_eqb_refl in H1. discriminate H1.
    + exact (IH H2 F).
Qed.

Lemma no_equals_after_strip (raw : str) :
  contains (py "=") raw = false -> contains (py "=") (strip raw) = false.
Proof.
  change (py "=") with [61%N]. intro H.
  apply contains_free. intro F. apply In_strip in F.
  exact (@contains_char_false 61%N raw H F).
Qed.

Lemma in_section_of (sec : str) (st : pstate) (name : str) :
  current_section st = Some sec -> in_section name st = str_eqb sec name.
Proof. intro H. unfold in_section. rewrite H. reflexivity. Qed.

(** C9.  Inside [软件截图] a line without an equals sign adds no screenshot:
    the iteration returns a state with the same collected screenshots -- and
    the same record, features and downloads, so the line leaves no trace.
    Inside [功能介绍] a content line without an equals sign is appended,
    trimmed, to the features. *)
Theorem screenshot_line_without_equals_is_dropped (st : pstate) (raw : str) :
  contains (py "=") raw = false ->
  (current_section st = Some (py "软件截图") ->
   exists st',
     process_line st raw = Ok st'
     /\ temp_screenshots st' = temp_screenshots st
     /\ info st' = info st
     /\ temp_features st' = temp_features st
     /\ temp_downloads st' = temp_downloads st)
  /\ (current_section st = Some (py "功能介绍") ->
      Spec.content_line raw = true ->
      process_line st raw = Ok (add_feature (strip raw) st)).
Proof.
  intro Hraw. pose proof (no_equals_after_strip raw Hraw) as Hline.
  split.
  - intro Hsec.
    pose proof (@in_section_of _ st (py "软件信息") Hsec) as S1.
    pose proof (@in_section_of _ st (py "功能介绍") Hsec) as S2.
    pose proof (@in_section_of _ st (py "软件截图") Hsec) as S3.
    change (str_eqb (py "软件截图") (py "软件信息")) with false in S1.
    change (str_eqb (py "软件截图") (py "功能介绍")) with false in S2.
    change (str_eqb (py "软件截图") (py "软件截图")) with true in S3.
    unfold process_line. cbv zeta. rewrite S1, S2, S3, Hline.
    destruct (negb (truthy (strip raw)) || startswith (py "#") (strip raw)).
    + exists st. repeat split.
    + destruct (startswith (py "[") (strip raw) && endswith (py "]") (strip raw)).
      * eexists. split; [reflexivity|]. repeat split.
      * exists st. repeat split.
  - intros Hsec Hc.
    pose proof (@in_section_of _ st (py "软件信息") Hsec) as S1.
    pose proof (@in_section_of _ st (py "功能介绍") Hsec) as S2.
    change (str_eqb (py "功能介绍") (py "软件信息")) with false in S1.
    change (str_eqb (py "功能介绍") (py "功能介绍")) with true in S2.
    unfold Spec.content_line in Hc. cbv zeta in Hc.
    apply andb_true_iff in Hc. destruct Hc as [C1 C2].
    apply negb_true_iff in C1. apply negb_true_iff in C2.
    unfold process_line. cbv zeta.
    rewrite C1, C2, S1, S2, Hline, strip_idem. reflexivity.
Qed.

(** The scan has entered [软件截图] and has one screenshot; the next line
    is a bare URL, without [N =] in front. *)
Lemma screenshot_line_without_equals_is_dropped_witness :
  let shot := ShotDict (mk_shot None None (Some (py "http://x/a.png"))) in
  let st := mk_pstate empty_info (Some (py "软件截图")) [] [] [shot] in
  exists st',
    process_line st (py "http://x/b.png") = Ok st'
    /\ temp_screenshots st' = [shot]
    /\ info st' = empty_info
    /\ temp_features st' = []
    /\ temp_downloads st' = [].
Proof.
  intros shot st.
  apply (proj1 (@screenshot_line_without_equals_is_dropped st (py "http://x/b.png") eq_refl)).
  reflexivity.
Defined.

End Parser.

(* ================================================================== *)
(** * Descriptions and screenshots: from the value to the markup *)
(* ================================================================== *)

Section Values.

Import PageTemplate.

Lemma split_aux_nonempty (sep : str) (s : str) :
  forall skip cur, nonempty (split_aux sep skip cur s) = true.
Proof.
  induction s as [|c s IH]; intros skip cur.
  - reflexivity.
  - cbn [split_aux]. destruct skip as [|k].
    + destruct (startswith sep (c :: s)); [reflexivity | apply IH].
    + apply IH.
Qed.

Lemma nonempty_map {A B : Type} (f : A -> B) (l : list A) :
  nonempty (map f l) = nonempty l.
Proof. destruct l; reflexivity. Qed.

Lemma no_bar (s : str) : contains (py "|") s = false -> ~ In 124%N s.
Proof. change (py "|") with [124%N]. apply contains_char_false. Qed.

(** Three pieces free of the vertical bar, joined by the double bar. *)
Lemma split_double_bar (a b c : str) :
  contains (py "|") a = false -> contains (py "|") b = false ->
  contains (py "|") c = false ->
  split (py "||") (a ++ py "||" ++ b ++ py "||" ++ c) = [a; b; c].
Proof.
  intros Ha Hb Hc. apply no_bar in Ha, Hb, Hc.
  change (py "||") with [124%N; 124%N].
  rewrite split_cons_piece by exact Ha.
  rewrite split_cons_piece by exact Hb.
  rewrite split_last_piece by exact Hc. reflexivity.
Qed.

(** The same for the single bar: three pieces, two pieces, one piece. *)
Lemma split_bar_3 (a b c : str) :
  contains (py "|") a = false -> contains (py "|") b = false ->
  contains (py "|") c = false ->
  split (py "|") (a ++ py "|" ++ b ++ py "|" ++ c) = [a; b; c].
Proof.
  intros Ha Hb Hc. apply no_bar in Ha, Hb, Hc.
  change (py "|") with [124%N].
  rewrite split_cons_piece by exact Ha.
  rewrite split_cons_piece by exact Hb.
  rewrite split_last_piece by exact Hc. reflexivity.
Qed.

Lemma split_bar_2 (a b : str) :
  contains (py "|") a = false -> contains (py "|") b = false ->
  split (py "|") (a ++ py "|" ++ b) = [a; b].
Proof.
  intros Ha Hb. apply no_bar in Ha, Hb.
  change (py "|") with [124%N].
  rewrite split_cons_piece by exact Ha.
  rewrite split_last_piece by exact Hb. reflexivity.
Qed.

(** The parts of the introduction.  A description value that contains the
    double bar is rendered, in
    the introduction, as the heading, one paragraph per segment of the
    value cut at the double bars -- each segment trimmed, in order -- and
    the separating line.  For the value [A||B||C], with no vertical bar
    inside the segments, these are exactly the three paragraphs of [A], [B]
    and [C]. *)
Lemma description_segments_become_paragraphs
        (info : software_info) (a b c : str) :
  contains (py "|") a = false -> contains (py "|") b = false ->
  contains (py "|") c = false ->
  description info = Some (parse_description (a ++ py "||" ++ b ++ py "||" ++ c)) ->
  parse_description (a ++ py "||" ++ b ++ py "||" ++ c)
  = Paras [strip a; strip b; strip c]
  /\ intro_parts info
     = [ py "<h3>软件介绍</h3>\n";
         py "<p>" ++ strip a ++ py "</p>\n";
         py "<p>" ++ strip b ++ py "</p>\n";
         py "<p>" ++ strip c ++ py "</p>\n";
         py "\n" ].
Proof.
  intros Ha Hb Hc Hd.
  assert (parse_description (a ++ py "||" ++ b ++ py "||" ++ c)
          = Paras [strip a; strip b; strip c]) as P.
  { unfold parse_description.
    rewrite contains_middle, split_double_bar by assumption. reflexivity. }
  split; [exact P|].
  unfold intro_parts. rewrite Hd, P. reflexivity.
Qed.

(** Whatever the value, there is one paragraph per segment. *)
Lemma description_one_paragraph_per_segment (info : software_info) (value : str) :
  contains (py "||") value = true ->
  description info = Some (parse_description value) ->
  intro_parts info
  = [py "<h3>软件介绍</h3>\n"]
    ++ map (fun seg => py "<p>" ++ strip seg ++ py "</p>\n") (split (py "||") value)
    ++ [py "\n"].
Proof.
  intros Hc Hd. unfold intro_parts, parse_description in *. rewrite Hd, Hc.
  cbn [dict_get]. rewrite nonempty_map. unfold split at 1.
  rewrite split_aux_nonempty. rewrite map_map. reflexivity.
Qed.

(** *** Screenshots *)

Lemma truthy_nonempty (s : str) : s <> [] -> truthy s = true.
Proof. apply truthy_true. Qed.

End Values.

(* ================================================================== *)
(** * The extra information *)
(* ================================================================== *)

Section ExtraInfo.

Import PageTemplate.

(** Absent notes, an empty list and a blank string produce no part. *)
Lemma extra_parts_nothing (info : software_info) :
  extra_info info = None
  \/ extra_info info = Some (Paras [])
  \/ (exists s, extra_info info = Some (Str s) /\ strip s = []) ->
  extra_parts info = [].
Proof.
  unfold extra_parts.
  intros [E | [E | [s [E B]]]]; rewrite E; cbn [dict_get].
  - reflexivity.
  - reflexivity.
  - rewrite B. destruct (truthy s); reflexivity.
Qed.

Lemma blank_entries_no_paragraph (l : list str) :
  Forall (fun e => strip e = []) l ->
  flat_map (fun para =>
              if truthy para && truthy (strip para)
              then [py "<p>" ++ para ++ py "</p>\n"]
              else []) l = [].
Proof.
  induction 1 as [|e l He _ IH].
  - reflexivity.
  - cbn [flat_map]. rewrite He, IH. cbn [truthy]. rewrite andb_false_r. reflexivity.
Qed.

(** A non-empty list of blank notes: the heading is appended, alone, and
    [generate_pure_content] does not run its clean-up. *)
Lemma blank_list_heading_alone (info : software_info) (l : list str) :
  extra_info info = Some (Paras l) -> l <> [] ->
  Forall (fun e => strip e = []) l ->
  extra_parts info = [py "\n"; py "<h3>其他信息</h3>\n"]
  /\ Build.generate_pure_content info = generate_wordpress_content info.
Proof.
  intros E Hne B. split.
  - unfold extra_parts. rewrite E. cbn [dict_get].
    destruct l as [|e l]; [contradiction|]. cbn [nonempty].
    rewrite blank_entries_no_paragraph by exact B. reflexivity.
  - unfold Build.generate_pure_content, Build.extra_is_empty. rewrite E.
    cbn [dict_get]. destruct l as [|e l]; [contradiction|]. reflexivity.
Qed.

(** C1.  The record whose only field is the notes [[" "]] -- present, its
    single entry blank -- is rendered with the heading [其他信息]: the
    renderer appends the heading before it looks at the entries, the
    clean-up of [generate_pure_content] is not run for a non-empty list, and
    would remove nothing if it were.  The same blank text given as a string
    and not as a list produces no heading. *)
Theorem blank_notes_keep_heading :
  let info := set_extra_info (Paras [py " "]) empty_info in
  Forall (fun e => strip e = []) [py " "]
  /\ Build.generate_pure_content info = py "<h3>软件介绍</h3>\n\n\n<h3>其他信息</h3>\n"
  /\ contains (py "<h3>其他信息</h3>") (Build.generate_pure_content info) = true
  /\ Build.re_sub_del Build.match_blank_p 0
       (Build.re_sub_del Build.match_empty_p 0 (generate_wordpress_content info))
     = generate_wordpress_content info
  /\ Build.generate_pure_content (set_extra_info (Str (py " ")) empty_info)
     = py "<h3>软件介绍</h3>\n\n".
Proof.
  cbv zeta. split.
  - constructor; [reflexivity | constructor].
  - vm_compute. repeat split.
Qed.

End ExtraInfo.

(* ================================================================== *)
(** * Further properties of the sanitizer and of the file names *)
(* ================================================================== *)

Module Notions.

(** A character the sanitizer lets through unchanged. *)
Definition safe_char (c : char) : Prop :=
  Spec.is_stripped c = false /\ c <> 32%N.

Definition safe_charb (c : char) : bool :=
  negb (Spec.is_stripped c) && negb (c =? 32)%N.

(** No blank character. *)
Definition blank_free (s : str) : Prop :=
  Forall (fun c => isspace c = false) s.

(** Only blank characters. *)
Definition all_blank (s : str) : Prop :=
  Forall (fun c => isspace c = true) s.

Import PageTemplate.

(** The five section names the parser knows. *)
Definition known_sections : list str :=
  [py "软件信息"; py "功能介绍"; py "软件截图"; py "下载链接"; py "额外信息"].

(** The scan is before the first section title, or inside a section whose
    name it does not know. *)
Definition outside_known (st : pstate) : Prop :=
  match current_section st with
  | None => True
  | Some s => ~ In s known_sections
  end.

(** A line the loop passes over: blank, or a comment. *)
Definition skipped (raw : str) : bool :=
  negb (truthy (strip raw)) || startswith (py "#") (strip raw).

(** A screenshot as the parser builds it: a dictionary with a URL. *)
Definition shot_ok (s : screenshot) : Prop :=
  exists d, s = ShotDict d /\ shot_url d <> None.

(** A download link as the parser builds it: a dictionary with a URL that
    is not empty and a code, neither holding a blank. *)
Definition link_ok (l : download_link) : Prop :=
  exists url code,
    l = LinkDict (mk_link (Some url) (Some code))
    /\ url <> [] /\ blank_free url /\ blank_free code.

(** The three collected lists of a record: absent or not empty, and made of
    entries as the parser builds them. *)
Definition lists_ok (i : software_info) : Prop :=
  features i <> Some []
  /\ match screenshots i with
     | Some l => l <> [] /\ Forall shot_ok l
     | None => True
     end
  /\ match download_links i with
     | Some l => l <> [] /\ Forall link_ok l
     | None => True
     end.

(** The invariant of the scan behind [lists_ok]. *)
Definition collecting (st : pstate) : Prop :=
  features (info st) = None
  /\ screenshots (info st) = None
  /\ download_links (info st) = None
  /\ Forall shot_ok (temp_screenshots st)
  /\ Forall link_ok (temp_downloads st).

(** A text value that renders as nothing: missing, the empty string or the
    empty list. *)
Definition no_text (v : option text) : Prop :=
  v = None \/ v = Some (Str []) \/ v = Some (Paras []).

(** A list value that renders as nothing: missing or empty. *)
Definition no_list {A : Type} (v : option (list A)) : Prop :=
  v = None \/ v = Some [].

(** The number a string of decimal digits stands for. *)
Definition nat_of_str (s : str) : nat :=
  fold_left (fun a c => 10 * a + (N.to_nat c - 48)) s 0.

End Notions.

Section SanitizerMore.

Import PageTemplate.

Lemma filter_all {A : Type} (p : A -> bool) (l : list A) :
  Forall (fun x => p x = true) l -> filter p l = l.
Proof.
  induction 1 as [|x l Hx _ IH]; simpl.
  - reflexivity.
  - rewrite Hx, IH. reflexivity.
Qed.

Lemma safe_chars_check (s : str) :
  forallb Notions.safe_charb s = true -> Forall Notions.safe_char s.
Proof.
  intro H. apply Forall_forall. intros c Hc.
  rewrite forallb_forall in H. specialize (H c Hc).
  unfold Notions.safe_charb in H. apply andb_true_iff in H. destruct H as [H1 H2].
  apply negb_true_iff in H1, H2. split; [exact H1 | apply N.eqb_neq; exact H2].
Qed.

Lemma map_space_safe (s : str) :
  Forall Notions.safe_char s -> map Spec.space_to_underscore s = s.
Proof.
  induction 1 as [|c s [_ Hc] _ IH]; simpl.
  - reflexivity.
  - unfold Spec.space_to_underscore at 1.
    apply N.eqb_neq in Hc. rewrite Hc, IH. reflexivity.
Qed.

Lemma sanitize_safe_unchanged (s : str) :
  Forall Notions.safe_char s -> length s <= 100 -> Build.sanitize_filename s = s.
Proof.
  intros Hs Hl. rewrite sanitize_filename_refines. unfold Spec.sanitize.
  rewrite filter_all.
  - rewrite map_space_safe by exact Hs. apply firstn_all2. exact Hl.
  - eapply Forall_impl; [|exact Hs]. intros c [Hc _]. rewrite Hc. reflexivity.
Qed.

Lemma sanitize_result_safe (s : str) :
  Forall Notions.safe_char (Build.sanitize_filename s)
  /\ length (Build.sanitize_filename s) <= 100.
Proof.
  rewrite sanitize_filename_refines. unfold Spec.sanitize. split.
  - apply Forall_firstn. apply cleaned_chars.
  - rewrite length_firstn. lia.
Qed.

(** X1.  Sanitizing twice is sanitizing once. *)
Theorem sanitize_filename_idempotent (s : str) :
  Build.sanitize_filename (Build.sanitize_filename s) = Build.sanitize_filename s.
Proof.
  destruct (sanitize_result_safe s) as [Hs Hl].
  apply sanitize_safe_unchanged; assumption.
Qed.

(** X2.  The names the sanitizer leaves as they are are exactly the names of
    at most 100 characters without a stripped character and without a
    space. *)
Theorem sanitize_filename_fixed_points (s : str) :
  Build.sanitize_filename s = s
  <-> Forall Notions.safe_char s /\ length s <= 100.
Proof.
  split.
  - intro E. rewrite <- E. apply sanitize_result_safe.
  - intros [Hs Hl]. apply sanitize_safe_unchanged; assumption.
Qed.

Lemma sanitize_filename_fixed_points_witness :
  Build.sanitize_filename (py "MyApp_2.0-beta") = py "MyApp_2.0-beta".
Proof.
  apply (proj2 (sanitize_filename_fixed_points (py "MyApp_2.0-beta"))).
  split.
  - apply safe_chars_check. vm_compute. reflexivity.
  - vm_compute. lia.
Defined.

(** X3.  The names of the content file and of the preview file are made of
    safe characters only -- in particular they hold no slash and no
    backslash, so both files land in the directory they are written to --
    and they are at most 105 and 113 characters long. *)
Theorem output_filenames_safe (i : software_info) :
  Forall Notions.safe_char (Build.html_filename i)
  /\ Forall Notions.safe_char (Build.preview_filename i)
  /\ Forall (fun c => c <> 47%N /\ c <> 92%N) (Build.html_filename i)
  /\ Forall (fun c => c <> 47%N /\ c <> 92%N) (Build.preview_filename i)
  /\ length (Build.html_filename i) <= 105
  /\ length (Build.preview_filename i) <= 113.
Proof.
  unfold Build.html_filename, Build.preview_filename, Build.safe_title.
  destruct (sanitize_result_safe (dict_get (title i) (py "software"))) as [Hs Hl].
  assert (Forall Notions.safe_char (py ".html")) as S1
      by (apply safe_chars_check; reflexivity).
  assert (Forall Notions.safe_char (py "_preview.html")) as S2
      by (apply safe_chars_check; reflexivity).
  assert (forall s, Forall Notions.safe_char s ->
                    Forall (fun c => c <> 47%N /\ c <> 92%N) s) as Sep.
  { intros s H. eapply Forall_impl; [|exact H].
    intros c [Hc _]. split; intro E; subst c; discriminate Hc. }
  repeat split.
  - apply Forall_app. split; assumption.
  - apply Forall_app. split; assumption.
  - apply Sep. apply Forall_app. split; assumption.
  - apply Sep. apply Forall_app. split; assumption.
  - rewrite length_app. change (length (py ".html")) with 5. lia.
  - rewrite length_app. change (length (py "_preview.html")) with 13. lia.
Qed.

Lemma space_to_underscore_other (c : char) :
  (c =? 32)%N = false -> Spec.space_to_underscore c = c.
Proof. intro E. unfold Spec.space_to_underscore. rewrite E. reflexivity. Qed.

Lemma filter_map_space (s : str) :
  filter (fun c => negb (Spec.is_stripped c)) (map Spec.space_to_underscore s)
  = map Spec.space_to_underscore (filter (fun c => negb (Spec.is_stripped c)) s).
Proof.
  induction s as [|c s IH].
  - reflexivity.
  - cbn [map filter]. rewrite IH.
    destruct (c =? 32)%N eqn:E.
    + apply N.eqb_eq in E. subst c.
      change (Spec.space_to_underscore 32%N) with 95%N.
      change (Spec.is_stripped 95%N) with false.
      change (Spec.is_stripped 32%N) with false.
      cbn [negb map]. reflexivity.
    + rewrite (space_to_underscore_other c E).
      destruct (Spec.is_stripped c); cbn [negb map]; [reflexivity|].
      rewrite (space_to_underscore_other c E). reflexivity.
Qed.

Lemma map_space_twice (s : str) :
  map Spec.space_to_underscore (map Spec.space_to_underscore s)
  = map Spec.space_to_underscore s.
Proof.
  rewrite map_map. apply map_ext. intro c.
  unfold Spec.space_to_underscore. destruct (c =? 32)%N eqn:E; [reflexivity|].
  rewrite E. reflexivity.
Qed.

(** X4.  The name the preview document announces differs from the name of
    the file by what the sanitizer still has to do: sanitizing the announced
    token gives the token the file is written under. *)
Theorem sanitized_embed_token_is_safe_title (i : software_info) :
  Build.sanitize_filename (embed_file_token i) = Build.safe_title i.
Proof.
  unfold embed_file_token, Build.safe_title.
  rewrite !sanitize_filename_refines, replace_space_map. unfold Spec.sanitize.
  rewrite filter_map_space, map_space_twice. reflexivity.
Qed.

(** X5.  Whenever [get_software_title] answers from the title or from the
    name, its answer is made of safe characters only.  (The stem of the
    path and the word [software] are returned as they are.) *)
Theorem get_software_title_safe (i : software_info) (path : option str) :
  (exists t, title i = Some t /\ t <> []) \/ name i <> None ->
  Forall Notions.safe_char (get_software_title i path).
Proof.
  intro H. unfold get_software_title.
  destruct (truthy (dict_get (title i) (py ""))) eqn:T.
  - rewrite clean_title_map_filter. apply cleaned_chars.
  - destruct H as [[t [Ht Hne]] | Hn].
    + rewrite Ht in T. destruct t; [contradiction | discriminate T].
    + destruct (name i) as [n|]; [|contradiction].
      rewrite clean_title_map_filter. apply cleaned_chars.
Qed.

Lemma get_software_title_safe_witness :
  Forall Notions.safe_char
         (get_software_title (set_name (py "a/b: c") empty_info) (Some (py "stem"))).
Proof.
  apply get_software_title_safe. right. discriminate.
Defined.

(** X22.  For a record whose title is not empty and, once cleaned, at
    most 100 characters long, [get_software_title] returns the token under
    which the files are written. *)
Theorem title_token_is_file_token (i : software_info) (t : str) (path : option str) :
  title i = Some t -> t <> [] ->
  length (clean_title t) <= 100 ->
  get_software_title i path = Build.safe_title i
  /\ Build.html_filename i = get_software_title i path ++ py ".html".
Proof.
  intros Ht Hne Hlen.
  assert (get_software_title i path = Build.safe_title i) as E.
  { unfold get_software_title, Build.safe_title. rewrite Ht. cbn [dict_get].
    destruct t as [|c t]; [contradiction|]. cbn [truthy].
    rewrite sanitize_filename_refines. unfold Spec.sanitize.
    rewrite clean_title_map_filter in *.
    symmetry. apply firstn_all2. exact Hlen. }
  split; [exact E|]. unfold Build.html_filename. rewrite E. reflexivity.
Qed.

Lemma title_token_is_file_token_witness :
  let i := set_title (py "My App: 2024") empty_info in
  get_software_title i None = Build.safe_title i
  /\ Build.html_filename i = get_software_title i None ++ py ".html".
Proof.
  intro i.
  apply (@title_token_is_file_token i (py "My App: 2024") None).
  - reflexivity.
  - discriminate.
  - vm_compute. lia.
Defined.

End SanitizerMore.

(* ================================================================== *)
(** * Lines of the form [key = value] *)
(* ================================================================== *)

Section KeyValue.

Import PageTemplate.

Lemma lstrip_all_blank (w : str) : Notions.all_blank w -> lstrip w = [].
Proof.
  induction 1 as [|c w Hc _ IH]; simpl.
  - reflexivity.
  - rewrite Hc. exact IH.
Qed.

Lemma lstrip_blank_prefix (w s : str) :
  Notions.all_blank w -> lstrip (w ++ s) = lstrip s.
Proof.
  induction 1 as [|c w Hc _ IH]; simpl.
  - reflexivity.
  - rewrite Hc. exact IH.
Qed.

Lemma lstrip_before_char (a b : str) (c : char) :
  isspace c = false -> lstrip (a ++ c :: b) = lstrip a ++ c :: b.
Proof.
  intro Hc. induction a as [|x a IH]; simpl.
  - rewrite Hc. reflexivity.
  - destruct (isspace x); [exact IH | reflexivity].
Qed.

Lemma rstrip_after_char (a b : str) (c : char) :
  isspace c = false -> rstrip (a ++ c :: b) = a ++ c :: rstrip b.
Proof.
  intro Hc. unfold rstrip.
  rewrite rev_app_distr. cbn [rev]. rewrite <- app_assoc. cbn [app].
  rewrite lstrip_before_char by exact Hc.
  rewrite rev_app_distr. cbn [rev]. rewrite rev_involutive, <- app_assoc.
  reflexivity.
Qed.

(** Around a character that is not blank, [strip] works on the two sides. *)
Lemma strip_around_char (a b : str) (c : char) :
  isspace c = false -> strip (a ++ c :: b) = lstrip a ++ c :: rstrip b.
Proof.
  intro Hc. unfold strip.
  rewrite lstrip_before_char by exact Hc.
  apply rstrip_after_char. exact Hc.
Qed.

Lemma strip_lstrip (s : str) : strip (lstrip s) = strip s.
Proof. unfold strip. rewrite lstrip_idem. reflexivity. Qed.

Lemma rstrip_blank_suffix (s w : str) :
  Notions.all_blank w -> rstrip (s ++ w) = rstrip s.
Proof.
  intro H. unfold rstrip. rewrite rev_app_distr.
  rewrite lstrip_blank_prefix; [reflexivity|].
  apply Forall_rev. exact H.
Qed.

Lemma strip_blank_suffix (s w : str) :
  Notions.all_blank w -> strip (s ++ w) = strip s.
Proof.
  intro H. unfold strip.
  destruct (lstrip_blanks s) as [v [E V]].
  destruct (lstrip s) as [|x r] eqn:L.
  - rewrite app_nil_r in E. subst v.
    rewrite lstrip_blank_prefix by exact V.
    rewrite lstrip_all_blank by exact H. reflexivity.
  - rewrite E at 1. rewrite <- app_assoc.
    rewrite lstrip_blank_prefix by exact V.
    assert (isspace x = false) as Hx.
    { apply (@lstrip_fixed_head x r). rewrite <- L. apply lstrip_idem. }
    change ((x :: r) ++ w) with ([] ++ x :: (r ++ w)).
    rewrite lstrip_before_char by exact Hx. cbn [lstrip app].
    change (x :: r ++ w) with ((x :: r) ++ w).
    apply rstrip_blank_suffix. exact H.
Qed.

Lemma strip_rstrip (s : str) : strip (rstrip s) = strip s.
Proof.
  destruct (rstrip_blanks s) as [w [E W]].
  rewrite E at 2. symmetry. apply strip_blank_suffix. exact W.
Qed.

Lemma split1_aux_first (d : char) (p a cur b : str) :
  ~ In d a ->
  split1_aux (d :: p) cur (a ++ (d :: p) ++ b) = [rev cur ++ a; b].
Proof.
  revert cur. induction a as [|x a IH]; intros cur H.
  - cbn [app]. change (d :: p ++ b) with ((d :: p) ++ b).
    unfold split1_aux at 1.
    change ((d :: p) ++ b) with (d :: (p ++ b)) at 1.
    cbv beta iota. change (d :: p ++ b) with ((d :: p) ++ b).
    rewrite startswith_app.
    rewrite skipn_app, skipn_all, Nat.sub_diag, app_nil_r. cbn [app skipn].
    reflexivity.
  - simpl in H.
    change ((x :: a) ++ (d :: p) ++ b) with (x :: (a ++ (d :: p) ++ b)).
    cbn [split1_aux].
    rewrite startswith_head_neq by (intro E; apply H; left; exact E).
    rewrite IH by (intro E; apply H; right; exact E).
    cbn [rev]. rewrite <- app_assoc. reflexivity.
Qed.

(** The line [key = value], once stripped and cut at its first equals sign:
    the key and the value the code works with, before their own [strip]. *)
Lemma key_value_cut (key value : str) :
  contains (py "=") key = false ->
  strip (key ++ py "=" ++ value) = lstrip key ++ py "=" ++ rstrip value
  /\ contains (py "=") (strip (key ++ py "=" ++ value)) = true
  /\ split1 (py "=") (strip (key ++ py "=" ++ value)) = [lstrip key; rstrip value].
Proof.
  intro Hk.
  assert (strip (key ++ py "=" ++ value) = lstrip key ++ py "=" ++ rstrip value) as E.
  { change (py "=") with [61%N]. apply strip_around_char. reflexivity. }
  rewrite E. split; [reflexivity | split].
  - apply contains_middle.
  - change (py "=") with [61%N] in *. unfold split1.
    rewrite split1_aux_first; [reflexivity|].
    intro F. apply In_lstrip in F.
    exact (@contains_char_false 61%N key Hk F).
Qed.

(** What a content line makes the two opening tests of the loop answer. *)
Lemma content_line_tests (raw : str) :
  Spec.content_line raw = true ->
  negb (truthy (strip raw)) || startswith (py "#") (strip raw) = false
  /\ startswith (py "[") (strip raw) && endswith (py "]") (strip raw) = false.
Proof.
  unfold Spec.content_line. cbv zeta. intro H.
  apply andb_true_iff in H. destruct H as [H1 H2].
  apply negb_true_iff in H1, H2. split; assumption.
Qed.



Lemma str_eqb_neq (a b : str) : a <> b -> str_eqb a b = false.
Proof.
  intro H. destruct (str_eqb a b) eqn:E; [|reflexivity].
  apply str_eqb_eq in E. contradiction.
Qed.

(** The iteration on a content line [key = value] inside [软件信息], with
    the key and the value already identified. *)
Lemma scalar_line_step (st : pstate) (key value : str) :
  current_section st = Some (py "软件信息") ->
  contains (py "=") key = false ->
  Spec.content_line (key ++ py "=" ++ value) = true ->
  process_line st (key ++ py "=" ++ value)
  = if str_eqb (strip key) (py "标题")
    then Ok (with_info (set_title (strip value)) st)
    else if str_eqb (strip key) (py "名称")
    then Ok (with_info (set_name (strip value)) st)
    else if str_eqb (strip key) (py "版本")
    then Ok (with_info (set_version (strip value)) st)
    else if str_eqb (strip key) (py "描述")
    then Ok (with_info (set_description (parse_description (strip value))) st)
    else Ok st.
Proof.
  intros Hsec Hk Hc.
  destruct (key_value_cut key value Hk) as [_ [C S]].
  destruct (content_line_tests _ Hc) as [T1 T2].
  pose proof (@in_section_of _ st (py "软件信息") Hsec) as S1.
  change (str_eqb (py "软件信息") (py "软件信息")) with true in S1.
  unfold process_line. cbv zeta. rewrite T1, T2, S1, C, S.
  cbn [unpack2 bind fst snd]. rewrite strip_lstrip, strip_rstrip. reflexivity.
Qed.

(** X7.  In [软件信息] a content line [key = value] is cut at its first
    equals sign; the trimmed key picks the field and the whole trimmed rest,
    further equals signs included, is the value.  A key that is none of the
    four leaves everything as it was. *)
Theorem scalar_line_assigns (st : pstate) (key value : str) :
  current_section st = Some (py "软件信息") ->
  contains (py "=") key = false ->
  Spec.content_line (key ++ py "=" ++ value) = true ->
  (strip key = py "标题" ->
   process_line st (key ++ py "=" ++ value)
   = Ok (with_info (set_title (strip value)) st))
  /\ (strip key = py "名称" ->
      process_line st (key ++ py "=" ++ value)
      = Ok (with_info (set_name (strip value)) st))
  /\ (strip key = py "版本" ->
      process_line st (key ++ py "=" ++ value)
      = Ok (with_info (set_version (strip value)) st))
  /\ (strip key = py "描述" ->
      process_line st (key ++ py "=" ++ value)
      = Ok (with_info (set_description (parse_description (strip value))) st))
  /\ (~ In (strip key) [py "标题"; py "名称"; py "版本"; py "描述"] ->
      process_line st (key ++ py "=" ++ value) = Ok st).
Proof.
  intros Hsec Hk Hc. rewrite (scalar_line_step st key value Hsec Hk Hc).
  repeat split; intro H.
  - rewrite H. reflexivity.
  - rewrite H. reflexivity.
  - rewrite H. reflexivity.
  - rewrite H. reflexivity.
  - rewrite !str_eqb_neq; [reflexivity | | | |];
      intro E; apply H; rewrite E; simpl; auto.
Qed.

Lemma scalar_line_assigns_witness :
  let st := mk_pstate empty_info (Some (py "软件信息")) [] [] [] in
  process_line st (py " 标题 " ++ py "=" ++ py " a = b ")
  = Ok (with_info (set_title (strip (py " a = b "))) st).
Proof.
  intro st.
  apply (proj1 (@scalar_line_assigns st (py " 标题 ") (py " a = b ")
                  eq_refl eq_refl eq_refl)).
  reflexivity.
Defined.

(** X8.  In [软件截图] a content line [key = value] adds exactly one
    screenshot, the dictionary built from the trimmed text after the first
    equals sign; the key plays no part. *)
Theorem screenshot_line_adds_one (st : pstate) (key value : str) :
  current_section st = Some (py "软件截图") ->
  contains (py "=") key = false ->
  Spec.content_line (key ++ py "=" ++ value) = true ->
  process_line st (key ++ py "=" ++ value)
  = Ok (add_screenshot (ShotDict (parse_screenshot (strip value))) st).
Proof.
  intros Hsec Hk Hc.
  destruct (key_value_cut key value Hk) as [_ [C S]].
  destruct (content_line_tests _ Hc) as [T1 T2].
  pose proof (@in_section_of _ st (py "软件信息") Hsec) as S1.
  pose proof (@in_section_of _ st (py "功能介绍") Hsec) as S2.
  pose proof (@in_section_of _ st (py "软件截图") Hsec) as S3.
  change (str_eqb (py "软件截图") (py "软件信息")) with false in S1.
  change (str_eqb (py "软件截图") (py "功能介绍")) with false in S2.
  change (str_eqb (py "软件截图") (py "软件截图")) with true in S3.
  unfold process_line. cbv zeta. rewrite T1, T2, S1, S2, S3, C, S.
  cbn [unpack2 bind snd]. rewrite strip_rstrip. reflexivity.
Qed.

Lemma screenshot_line_adds_one_witness :
  let st := mk_pstate empty_info (Some (py "软件截图")) [] [] [] in
  process_line st (py "1 " ++ py "=" ++ py " Main window | http://x/y.png ")
  = Ok (add_screenshot
          (ShotDict (parse_screenshot (strip (py " Main window | http://x/y.png "))))
          st).
Proof.
  intro st.
  apply (@screenshot_line_adds_one st (py "1 ") (py " Main window | http://x/y.png "));
    reflexivity.
Defined.

End KeyValue.

(* ================================================================== *)
(** * Download lines *)
(* ================================================================== *)

Section DownloadLines.

Import PageTemplate.

Lemma split_ws_aux_blank (w : str) :
  Notions.all_blank w ->
  forall cur, split_ws_aux cur w = match cur with [] => [] | _ => [rev cur] end.
Proof.
  induction 1 as [|c w Hc _ IH]; intro cur.
  - reflexivity.
  - cbn [split_ws_aux]. rewrite Hc, (IH []). destruct cur; reflexivity.
Qed.

Lemma split_ws_aux_suffix (s w : str) :
  Notions.all_blank w ->
  forall cur, split_ws_aux cur (s ++ w) = split_ws_aux cur s.
Proof.
  intro H. induction s as [|c s IH]; intro cur.
  - cbn [app]. rewrite split_ws_aux_blank by exact H. reflexivity.
  - cbn [app split_ws_aux]. rewrite !IH. reflexivity.
Qed.

Lemma split_ws_lstrip (s : str) : split_ws (lstrip s) = split_ws s.
Proof.
  unfold split_ws. induction s as [|c s IH].
  - reflexivity.
  - cbn [lstrip]. destruct (isspace c) eqn:Hc.
    + rewrite IH. cbn [split_ws_aux]. rewrite Hc. reflexivity.
    + reflexivity.
Qed.

(** Stripping a line first does not change its tokens. *)
Lemma split_ws_strip (s : str) : split_ws (strip s) = split_ws s.
Proof.
  rewrite <- (split_ws_lstrip s). unfold strip.
  destruct (rstrip_blanks (lstrip s)) as [w [E W]].
  rewrite E at 2. unfold split_ws.
  rewrite split_ws_aux_suffix by exact W. reflexivity.
Qed.

(** A token is not empty and holds no blank. *)
Lemma split_ws_aux_tokens (s : str) :
  forall cur, Notions.blank_free cur ->
  Forall (fun t => t <> [] /\ Notions.blank_free t) (split_ws_aux cur s).
Proof.
  assert (forall x cur, Notions.blank_free (x :: cur) ->
                        rev (x :: cur) <> [] /\ Notions.blank_free (rev (x :: cur))) as R.
  { intros x cur H. split.
    - cbn [rev]. intro F. apply app_eq_nil in F. destruct F as [_ F]. discriminate F.
    - apply Forall_rev. exact H. }
  induction s as [|c s IH]; intros cur Hcur.
  - cbn [split_ws_aux]. destruct cur as [|x cur]; constructor; [apply R; exact Hcur | constructor].
  - cbn [split_ws_aux]. destruct (isspace c) eqn:Hc.
    + destruct cur as [|x cur].
      * apply IH. constructor.
      * constructor; [apply R; exact Hcur | apply IH; constructor].
    + apply IH. constructor; assumption.
Qed.

Lemma split_ws_tokens (s : str) :
  Forall (fun t => t <> [] /\ Notions.blank_free t) (split_ws s).
Proof. apply split_ws_aux_tokens. constructor. Qed.

Lemma split_ws_aux_nil (s : str) :
  forall cur, split_ws_aux cur s = [] -> cur = [] /\ Notions.all_blank s.
Proof.
  induction s as [|c s IH]; intros cur H.
  - cbn [split_ws_aux] in H. destruct cur; [split; [reflexivity | constructor] | discriminate H].
  - cbn [split_ws_aux] in H. destruct (isspace c) eqn:Hc.
    + destruct cur as [|x cur]; [|discriminate H].
      destruct (IH [] H) as [_ B]. split; [reflexivity | constructor; assumption].
    + destruct (IH (c :: cur) H) as [F _]. discriminate F.
Qed.

Lemma lstrip_blank_free (t : str) : Notions.blank_free t -> lstrip t = t.
Proof.
  intro H. destruct H as [|c t Hc _]; [reflexivity|].
  cbn [lstrip]. rewrite Hc. reflexivity.
Qed.

Lemma strip_blank_free (t : str) : Notions.blank_free t -> strip t = t.
Proof.
  intro H. unfold strip, rstrip.
  rewrite (lstrip_blank_free H).
  rewrite lstrip_blank_free by (apply Forall_rev; exact H).
  apply rev_involutive.
Qed.

(** The dictionary of a line, read off its tokens. *)
Definition link_of_tokens (tokens : list str) : option link_dict :=
  match tokens with
  | [] => None
  | [url] => Some (mk_link (Some url) (Some (py "")))
  | url :: code :: _ => Some (mk_link (Some url) (Some code))
  end.

Lemma parse_download_line_tokens (line : str) :
  parse_download_line line = link_of_tokens (split_ws line).
Proof.
  unfold parse_download_line. cbv zeta.
  rewrite split_ws_strip.
  pose proof (split_ws_tokens line) as T.
  destruct (truthy (strip line)) eqn:E; cbn [negb].
  - destruct (split_ws line) as [|u [|c rest]]; [reflexivity | |].
    + inversion T as [|? ? [_ Hu] _]; subst.
      rewrite (strip_blank_free Hu). reflexivity.
    + inversion T as [|? ? [_ Hu] T']; subst.
      inversion T' as [|? ? [_ Hc] _]; subst.
      rewrite (strip_blank_free Hu), (strip_blank_free Hc). reflexivity.
  - destruct (strip line) eqn:S; [|discriminate E].
    rewrite <- (split_ws_strip line), S. reflexivity.
Qed.

(** X9.  [parse_download_line] returns the first two whitespace-separated
    tokens of the line as URL and code (the empty code when there is one
    token only) and ignores every further token; it returns the empty
    dictionary when the line has no token.  Blanks around the line play no
    part: the stripped line gives the same dictionary. *)
Theorem download_line_is_its_first_two_tokens (line : str) :
  parse_download_line line
  = match split_ws line with
    | [] => None
    | [url] => Some (mk_link (Some url) (Some (py "")))
    | url :: code :: _ => Some (mk_link (Some url) (Some code))
    end
  /\ parse_download_line (strip line) = parse_download_line line.
Proof.
  split.
  - apply parse_download_line_tokens.
  - rewrite !parse_download_line_tokens, split_ws_strip. reflexivity.
Qed.

Lemma all_blank_strip (s : str) : Notions.all_blank s -> strip s = [].
Proof. intro H. unfold strip. rewrite (lstrip_all_blank H). reflexivity. Qed.

Lemma parse_download_line_none (line : str) :
  parse_download_line line = None <-> strip line = [].
Proof.
  split.
  - rewrite parse_download_line_tokens. intro H.
    destruct (split_ws line) as [|u [|c rest]] eqn:E; try discriminate H.
    apply all_blank_strip. apply (split_ws_aux_nil line [] E).
  - intro H. unfold parse_download_line. cbv zeta. rewrite H. reflexivity.
Qed.

Lemma strip_nil_all_blank (s : str) : strip s = [] -> Notions.all_blank s.
Proof.
  intro H. destruct (lstrip_blanks s) as [w [E W]].
  destruct (rstrip_blanks (lstrip s)) as [w' [E' W']].
  unfold strip in H. rewrite H in E'. cbn [app] in E'.
  rewrite E, E'. apply Forall_app. split; assumption.
Qed.

(** X10.  The empty dictionary is returned for the lines made of blank
    characters only (the empty line among them) and for no other line. *)
Theorem download_line_empty_iff_blank (line : str) :
  parse_download_line line = None <-> Notions.all_blank line.
Proof.
  rewrite parse_download_line_none. split.
  - apply strip_nil_all_blank.
  - apply all_blank_strip.
Qed.

(** What a parsed line always looks like. *)
Lemma parsed_link_shape (line : str) (d : link_dict) :
  parse_download_line line = Some d ->
  exists url code,
    d = mk_link (Some url) (Some code)
    /\ url <> [] /\ Notions.blank_free url /\ Notions.blank_free code.
Proof.
  rewrite parse_download_line_tokens. intro H.
  pose proof (split_ws_tokens line) as T.
  destruct (split_ws line) as [|u [|c rest]]; [discriminate H | |].
  - injection H as <-. inversion T as [|? ? [Hne Hu] _]; subst.
    exists u, (py "").
    split; [reflexivity|]. split; [exact Hne|]. split; [exact Hu | constructor].
  - injection H as <-. inversion T as [|? ? [Hne Hu] T']; subst.
    inversion T' as [|? ? [Hcn Hc] _]; subst.
    exists u, c.
    split; [reflexivity|]. split; [exact Hne|]. split; [exact Hu | exact Hc].
Qed.

(** X11.  A link read from a line has a URL that is not empty; its URL and
    its code hold no blank character; and its short-code carries the code
    attribute exactly when the line had a second token. *)
Theorem parsed_link_well_formed (line : str) (d : link_dict) :
  parse_download_line line = Some d ->
  exists url code,
    d = mk_link (Some url) (Some code)
    /\ url <> [] /\ Notions.blank_free url /\ Notions.blank_free code
    /\ link_shortcode (LinkDict d)
       = if truthy code
         then py " [link url=\x22" ++ url ++ py "\x22 code=\x22" ++ code ++ py "\x22][/link]"
         else py " [link url=\x22" ++ url ++ py "\x22][/link]".
Proof.
  intro H. destruct (parsed_link_shape _ H) as [u [c [-> [Hne [Hu Hc]]]]].
  exists u, c.
  split; [reflexivity|]. split; [exact Hne|]. split; [exact Hu|].
  split; [exact Hc|].
  unfold link_shortcode. cbn [dict_get code link_url].
  rewrite (strip_blank_free Hc). destruct (truthy c); reflexivity.
Qed.

Lemma parsed_link_well_formed_witness :
  exists url code,
    mk_link (Some (py "https://pan.example/s/abc")) (Some (py "x7k9"))
    = mk_link (Some url) (Some code)
    /\ url <> [] /\ Notions.blank_free url /\ Notions.blank_free code
    /\ link_shortcode (LinkDict (mk_link (Some (py "https://pan.example/s/abc"))
                                         (Some (py "x7k9"))))
       = if truthy code
         then py " [link url=\x22" ++ url ++ py "\x22 code=\x22" ++ code ++ py "\x22][/link]"
         else py " [link url=\x22" ++ url ++ py "\x22][/link]".
Proof.
  apply (@parsed_link_well_formed (py "  https://pan.example/s/abc   x7k9  # mirror")).
  reflexivity.
Defined.



End DownloadLines.

(* ================================================================== *)
(** * More about the scan *)
(* ================================================================== *)

Section ScanMore.

Import PageTemplate.

Lemma outside_known_tests (st : pstate) (name : str) :
  Notions.outside_known st -> In name Notions.known_sections ->
  in_section name st = false.
Proof.
  unfold Notions.outside_known, in_section. intros H Hn.
  destruct (current_section st) as [s|]; [|reflexivity].
  apply str_eqb_neq. intro E. subst s. contradiction.
Qed.

Lemma in_dec_false (s : str) (l : list str) :
  In s l -> existsb (str_eqb s) l = false -> False.
Proof.
  intros H E. assert (existsb (str_eqb s) l = true) as T.
  { apply existsb_exists. exists s. split; [exact H | apply str_eqb_refl]. }
  rewrite T in E. discriminate E.
Qed.

(** X13.  Before the first section title and inside a section of unknown
    name, a line that is not a section title changes nothing. *)
Theorem line_outside_known_sections_ignored (st : pstate) (raw : str) :
  Notions.outside_known st ->
  Spec.section_header raw = None ->
  process_line st raw = Ok st.
Proof.
  intros Hout Hh.
  unfold Spec.section_header in Hh. cbv zeta in Hh.
  unfold process_line. cbv zeta.
  destruct (negb (truthy (strip raw)) || startswith (py "#") (strip raw));
    [reflexivity|].
  destruct (startswith (py "[") (strip raw) && endswith (py "]") (strip raw));
    [discriminate Hh|].
  assert (in_section (py "软件信息") st = false) as S1
      by (apply (outside_known_tests _ Hout); left; reflexivity).
  assert (in_section (py "功能介绍") st = false) as S2
      by (apply (outside_known_tests _ Hout); right; left; reflexivity).
  assert (in_section (py "软件截图") st = false) as S3
      by (apply (outside_known_tests _ Hout); do 2 right; left; reflexivity).
  assert (in_section (py "下载链接") st = false) as S4
      by (apply (outside_known_tests _ Hout); do 3 right; left; reflexivity).
  assert (in_section (py "额外信息") st = false) as S5
      by (apply (outside_known_tests _ Hout); do 4 right; left; reflexivity).
  rewrite S1, S2, S3, S4, S5. reflexivity.
Qed.

Lemma line_outside_known_sections_ignored_witness :
  let st := mk_pstate empty_info (Some (py "更新日志")) [] [py "f"] [] in
  process_line st (py "1 = fixed a crash") = Ok st.
Proof.
  intro st.
  apply (@line_outside_known_sections_ignored st (py "1 = fixed a crash")).
  - unfold Notions.outside_known. cbn [current_section].
    intro F. apply (@in_dec_false _ _ F). vm_compute. reflexivity.
  - reflexivity.
Defined.

(** *** Blank lines and comments *)

Lemma scan_app (a b : list str) :
  forall st, scan st (a ++ b) = (st' <- scan st a ;; scan st' b).
Proof.
  induction a as [|x a IH]; intro st.
  - reflexivity.
  - cbn [app scan]. destruct (process_line st x) as [st1 | e]; cbn [bind].
    + apply IH.
    + reflexivity.
Qed.

Lemma skipped_line_step (st : pstate) (raw : str) :
  Notions.skipped raw = true -> process_line st raw = Ok st.
Proof.
  unfold Notions.skipped, process_line. cbv zeta. intros ->. reflexivity.
Qed.

Lemma scan_skips (pre post : list str) (raw : str) (st : pstate) :
  Notions.skipped raw = true ->
  scan st (pre ++ raw :: post) = scan st (pre ++ post).
Proof.
  intro H. rewrite !scan_app.
  destruct (scan st pre) as [st' | e]; cbn [bind]; [|reflexivity].
  cbn [scan]. rewrite (skipped_line_step st' raw H). reflexivity.
Qed.

Lemma split_char_app (d : char) (a b : str) :
  forall cur,
    split_aux [d] 0 cur (a ++ d :: b)
    = split_aux [d] 0 cur a ++ split_aux [d] 0 [] b.
Proof.
  induction a as [|x a IH]; intro cur.
  - cbn [app split_aux startswith length Nat.sub]. rewrite char_eqb_refl. reflexivity.
  - cbn [app split_aux startswith length Nat.sub].
    destruct (char_eqb d x && true).
    + rewrite IH. reflexivity.
    + apply IH.
Qed.

Lemma lines_app (a b : str) :
  split (py "\n") (a ++ py "\n" ++ b) = split (py "\n") a ++ split (py "\n") b.
Proof. change (py "\n") with [10%N]. apply split_char_app. Qed.

Lemma lines_single (c : str) :
  contains (py "\n") c = false -> split (py "\n") c = [c].
Proof.
  change (py "\n") with [10%N]. intro H.
  apply split_last_piece. exact (@contains_char_false 10%N c H).
Qed.

(** X14.  A blank line or a comment line inserted between two lines of the
    file does not change the record that is parsed. *)
Theorem inserted_comment_changes_nothing (stem pre c post : str) :
  contains (py "\n") c = false ->
  Notions.skipped c = true ->
  parse_config_file stem (Ok (pre ++ py "\n" ++ c ++ py "\n" ++ post))
  = parse_config_file stem (Ok (pre ++ py "\n" ++ post)).
Proof.
  intros Hc Hs. unfold parse_config_file, try_parse. cbn [bind].
  rewrite !lines_app, (lines_single c Hc). cbn [app].
  rewrite (scan_skips _ _ c init_pstate Hs). reflexivity.
Qed.

Lemma inserted_comment_changes_nothing_witness :
  parse_config_file (py "demo")
    (Ok (py "[软件信息]\n名称 = Demo" ++ py "\n" ++ py "  # the version follows"
         ++ py "\n" ++ py "版本 = 2.1"))
  = parse_config_file (py "demo")
      (Ok (py "[软件信息]\n名称 = Demo" ++ py "\n" ++ py "版本 = 2.1")).
Proof.
  apply inserted_comment_changes_nothing; reflexivity.
Defined.

(** *** The collected lists *)

Ltac line_cases' H :=
  unfold process_line in H; cbv zeta in H;
  repeat match type of H with
    | (if ?b then _ else _) = _ => destruct b eqn:?
    | bind (unpack2 (split1 (py "=") ?l)) _ = _ =>
        let a := fresh "a" in
        let b := fresh "b" in
        let E := fresh "E" in
        match goal with
        | Hc : contains (py "=") l = true |- _ =>
            destruct (@unpack_eq l Hc) as [a [b E]];
            rewrite E in H; cbn [unpack2 bind fst snd] in H
        end
    | match parse_download_line ?l with _ => _ end = _ =>
        destruct (parse_download_line l) eqn:?
    | bind (append_extra ?l ?i) _ = _ =>
        let A := fresh "A" in
        destruct (append_extra l i) eqn:A; cbn [bind] in H
    end.

Lemma parse_screenshot_has_url (value : str) :
  shot_url (parse_screenshot value) <> None.
Proof.
  unfold parse_screenshot.
  destruct (contains (py "|") value); [|discriminate].
  destruct (split (py "|") value) as [|p0 [|p1 [|p2 rest]]]; discriminate.
Qed.

Lemma append_extra_lists (line : str) (i i' : software_info) :
  append_extra line i = Ok i' ->
  features i' = features i /\ screenshots i' = screenshots i
  /\ download_links i' = download_links i.
Proof.
  unfold append_extra. intro H.
  destruct (extra_info i) as [[s | l]|]; try discriminate H;
    injection H as <-; repeat split.
Qed.

Lemma process_line_collecting (st st' : pstate) (raw : str) :
  process_line st raw = Ok st' ->
  Notions.collecting st -> Notions.collecting st'.
Proof.
  intros H [F1 [F2 [F3 [F4 F5]]]].
  line_cases' H; try discriminate H; injection H as <-;
    unfold Notions.collecting;
    cbn [info temp_screenshots temp_downloads with_info with_section add_feature
         add_screenshot add_download set_title set_name set_version set_description
         features screenshots download_links];
    try (repeat split; assumption).
  - repeat split; try assumption.
    apply Forall_app. split; [exact F4|].
    constructor; [|constructor].
    eexists. split; [reflexivity | apply parse_screenshot_has_url].
  - repeat split; try assumption.
    apply Forall_app. split; [exact F5|].
    constructor; [|constructor].
    match goal with
    | P : parse_download_line _ = Some _ |- _ =>
        destruct (parsed_link_shape _ P) as [u [c [-> [U1 [U2 U3]]]]]
    end.
    exists u, c. repeat split; assumption.
  - destruct (append_extra_lists _ _ A) as [G1 [G2 G3]].
    rewrite G1, G2, G3. repeat split; assumption.
Qed.

Lemma scan_collecting (lines : list str) :
  forall st st', scan st lines = Ok st' ->
                 Notions.collecting st -> Notions.collecting st'.
Proof.
  induction lines as [|raw lines IH]; intros st st' H C.
  - injection H as <-. exact C.
  - cbn [scan] in H. destruct (process_line st raw) as [st1|e] eqn:P; [|discriminate H].
    cbn [bind] in H. apply (IH st1 st' H).
    apply (process_line_collecting _ P C).
Qed.

Lemma store_lists_ok (st : pstate) :
  Notions.collecting st -> Notions.lists_ok (store_lists st).
Proof.
  intros [F1 [F2 [F3 [F4 F5]]]].
  destruct st as [i sec td tf ts]. cbn [info temp_screenshots temp_downloads] in *.
  unfold store_lists, Notions.lists_ok.
  cbn [info temp_features temp_screenshots temp_downloads].
  destruct tf as [|f tf], ts as [|s ts], td as [|d td];
    cbn [nonempty set_features set_screenshots set_download_links
         features screenshots download_links];
    rewrite ?F1, ?F2, ?F3;
    repeat split; try assumption; discriminate.
Qed.

Lemma fill_defaults_lists (stem : str) (i : software_info) :
  Notions.lists_ok i -> Notions.lists_ok (fill_defaults stem i).
Proof.
  destruct i as [[t|] [n|] [v|] [d|] f s dl e]; intro H; exact H.
Qed.

(** X15.  In a record returned by the [try] block the features, the
    screenshots and the download links are each absent or a list that is
    not empty -- the renderer never meets an empty list -- and every
    screenshot is a dictionary with a URL, every download link a dictionary
    with a URL that is not empty and a code, both without blanks. *)
Theorem parsed_lists_well_formed (stem : str) (read : result str) (i : software_info) :
  try_parse stem read = Ok i -> Notions.lists_ok i.
Proof.
  intro H. destruct read as [content|e]; [|discriminate H].
  destruct (try_parse_ok stem content) as [st [S [E _]]].
  rewrite E in H. injection H as <-.
  apply fill_defaults_lists, store_lists_ok.
  apply (scan_collecting _ S).
  repeat split; constructor.
Qed.

Lemma parsed_lists_well_formed_witness :
  Notions.lists_ok
    (parse_config_file (py "demo")
       (Ok (py "[功能介绍]\n[软件截图]\n1 = a|b|http://x/y.png\n[下载链接]\nhttp://x/f.zip k3y\n"))).
Proof.
  apply (@parsed_lists_well_formed (py "demo")
           (Ok (py "[功能介绍]\n[软件截图]\n1 = a|b|http://x/y.png\n[下载链接]\nhttp://x/f.zip k3y\n"))).
  reflexivity.
Defined.

(** *** The defaults *)

(** X16.  The defaults in closed form: a scalar field present in the file
    keeps its value; a missing title is the name, or the stem when the name
    is missing too; a missing name is the title, or the stem; the lists and
    the notes are not touched; and filling in the defaults a second time
    changes nothing. *)
Theorem fill_defaults_closed_form (stem : str) (i : software_info) :
  let r := fill_defaults stem i in
  title r = Some (dict_get (title i) (dict_get (name i) stem))
  /\ name r = Some (dict_get (name i) (dict_get (title i) stem))
  /\ version r = Some (dict_get (version i) (py "1.0.0"))
  /\ description r = Some (dict_get (description i) (Str (py "")))
  /\ features r = features i
  /\ screenshots r = screenshots i
  /\ download_links r = download_links i
  /\ extra_info r = extra_info i
  /\ fill_defaults stem r = r.
Proof.
  destruct i as [[t|] [n|] [v|] [d|] f s dl e]; cbv -[py];
    repeat (split; [reflexivity|]); reflexivity.
Qed.

End ScanMore.

(* ================================================================== *)
(** * More about the renderer *)
(* ================================================================== *)

Section RendererMore.

Import PageTemplate.

Lemma nonblank_entries_all_paragraphs (l : list str) :
  Forall (fun e => strip e <> []) l ->
  flat_map (fun para =>
              if truthy para && truthy (strip para)
              then [py "<p>" ++ para ++ py "</p>\n"]
              else []) l
  = map (fun para => py "<p>" ++ para ++ py "</p>\n") l.
Proof.
  induction 1 as [|e l He _ IH].
  - reflexivity.
  - cbn [flat_map map]. rewrite IH.
    assert (truthy (strip e) = true) as T by (apply truthy_true; exact He).
    assert (truthy e = true) as T'.
    { apply truthy_true. intro F. subst e. apply He. reflexivity. }
    rewrite T, T'. reflexivity.
Qed.

(** X17.  Notes as the parser leaves them -- a list, not empty, no entry
    blank -- are rendered in full: the separating line, the heading and one
    paragraph per note, in order; and [generate_pure_content] returns the
    fragment unchanged. *)
Theorem parsed_notes_all_rendered (info : software_info) (l : list str) :
  Spec.notes_nonblank info ->
  extra_info info = Some (Paras l) ->
  extra_parts info
  = [py "\n"; py "<h3>其他信息</h3>\n"]
    ++ map (fun para => py "<p>" ++ para ++ py "</p>\n") l
  /\ Build.generate_pure_content info = generate_wordpress_content info.
Proof.
  unfold Spec.notes_nonblank. intros W E. rewrite E in W. destruct W as [Hne Hl].
  destruct l as [|e l]; [contradiction|]. split.
  - unfold extra_parts. rewrite E. cbn [dict_get nonempty].
    rewrite nonblank_entries_all_paragraphs by exact Hl. reflexivity.
  - unfold Build.generate_pure_content, Build.extra_is_empty. rewrite E. reflexivity.
Qed.

Lemma parsed_notes_all_rendered_witness :
  let info := set_extra_info (Paras [py "Freeware"; py "Windows 10+"]) empty_info in
  extra_parts info
  = [py "\n"; py "<h3>其他信息</h3>\n"]
    ++ map (fun para => py "<p>" ++ para ++ py "</p>\n") [py "Freeware"; py "Windows 10+"]
  /\ Build.generate_pure_content info = generate_wordpress_content info.
Proof.
  intro info.
  apply (@parsed_notes_all_rendered info [py "Freeware"; py "Windows 10+"]).
  - split; [discriminate|].
    constructor; [vm_compute; discriminate|].
    constructor; [vm_compute; discriminate | constructor].
  - reflexivity.
Defined.

(** *** The clean-up of generate_pure_content *)

Lemma re_sub_del_length (m : str -> option nat) (s : str) :
  forall skip, length (Build.re_sub_del m skip s) <= length s.
Proof.
  induction s as [|c s IH]; intro skip.
  - reflexivity.
  - cbn [Build.re_sub_del]. destruct skip as [|k].
    + destruct (m (c :: s)) as [[|n]|]; cbn [length];
        try (specialize (IH 0); lia).
      specialize (IH n). lia.
    + specialize (IH k). cbn [length]. lia.
Qed.

Lemma startswith_longer (p q t : str) :
  startswith p t = false -> startswith (p ++ q) t = false.
Proof.
  revert t. induction p as [|x p IH]; intros t H.
  - discriminate H.
  - destruct t as [|y t]; [reflexivity|].
    cbn [app startswith] in *.
    destruct (char_eqb x y); [cbn [andb] in *; apply IH; exact H | reflexivity].
Qed.

Lemma re_sub_del_no_match (m : str -> option nat) (pre s : str) :
  (forall t, startswith pre t = false -> m t = None) ->
  contains pre s = false ->
  Build.re_sub_del m 0 s = s.
Proof.
  intros Hm. induction s as [|c s IH]; intro H.
  - reflexivity.
  - change (contains pre (c :: s))
      with (startswith pre (c :: s) || contains pre s) in H.
    apply orb_false_iff in H. destruct H as [H1 H2].
    cbn [Build.re_sub_del]. rewrite (Hm _ H1), (IH H2). reflexivity.
Qed.

Lemma match_empty_p_needs_prefix (t : str) :
  startswith (py "\n\n<p>") t = false -> Build.match_empty_p t = None.
Proof.
  intro H. unfold Build.match_empty_p.
  change (py "\n\n<p></p>") with (py "\n\n<p>" ++ py "</p>").
  rewrite (startswith_longer _ (py "</p>") _ H). reflexivity.
Qed.

Lemma match_blank_p_needs_prefix (t : str) :
  startswith (py "\n\n<p>") t = false -> Build.match_blank_p t = None.
Proof. intro H. unfold Build.match_blank_p. rewrite H. reflexivity. Qed.

(** X18.  The clean-up of [generate_pure_content] only deletes: its result
    is never longer than the fragment.  And it deletes nothing when the
    fragment holds no empty line directly followed by [<p>]. *)
Theorem pure_content_only_deletes (info : software_info) :
  length (Build.generate_pure_content info)
  <= length (generate_wordpress_content info)
  /\ (contains (py "\n\n<p>") (generate_wordpress_content info) = false ->
      Build.generate_pure_content info = generate_wordpress_content info).
Proof.
  unfold Build.generate_pure_content. split.
  - destruct (Build.extra_is_empty info); [|lia].
    etransitivity; [apply re_sub_del_length | apply re_sub_del_length].
  - intro H. destruct (Build.extra_is_empty info); [|reflexivity].
    rewrite (re_sub_del_no_match _ (py "\n\n<p>") _ match_empty_p_needs_prefix H).
    apply (re_sub_del_no_match _ (py "\n\n<p>") _ match_blank_p_needs_prefix H).
Qed.

Lemma pure_content_only_deletes_witness :
  let info := set_features [py "fast"; py "small"]
                (set_description (Str (py "A tool.")) empty_info) in
  Build.generate_pure_content info = generate_wordpress_content info.
Proof.
  intro info.
  apply (proj2 (pure_content_only_deletes info)).
  vm_compute. reflexivity.
Defined.

(** X19.  A record with nothing to show -- no description, features,
    screenshots, download links or notes, each missing or empty, the notes
    possibly a blank string -- is rendered as the introduction heading and
    one empty line, by both generators, whatever its title, name and
    version. *)
Theorem empty_record_renders_heading_only (info : software_info) :
  Notions.no_text (description info) ->
  Notions.no_list (features info) ->
  Notions.no_list (screenshots info) ->
  Notions.no_list (download_links info) ->
  (Notions.no_text (extra_info info)
   \/ exists s, extra_info info = Some (Str s) /\ strip s = []) ->
  generate_wordpress_content info = py "<h3>软件介绍</h3>\n\n"
  /\ Build.generate_pure_content info = py "<h3>软件介绍</h3>\n\n".
Proof.
  intros Hd Hf Hs Hl He.
  assert (html_parts info = [py "<h3>软件介绍</h3>\n"; py "\n"]) as P.
  { unfold html_parts.
    assert (intro_parts info = [py "<h3>软件介绍</h3>\n"; py "\n"]) as ->.
    { unfold intro_parts. destruct Hd as [-> | [-> | ->]]; reflexivity. }
    assert (feature_parts info = []) as ->.
    { unfold feature_parts. destruct Hf as [-> | ->]; reflexivity. }
    assert (screenshot_parts info = []) as ->.
    { unfold screenshot_parts. destruct Hs as [-> | ->]; reflexivity. }
    assert (download_parts info = []) as ->.
    { unfold download_parts. destruct Hl as [-> | ->]; reflexivity. }
    assert (extra_parts info = []) as ->.
    { apply extra_parts_nothing.
      destruct He as [[E | [E | E]] | [s [E B]]].
      - left. exact E.
      - right. right. exists []. split; [exact E | reflexivity].
      - right. left. exact E.
      - right. right. exists s. split; assumption. }
    reflexivity. }
  assert (generate_wordpress_content info = py "<h3>软件介绍</h3>\n\n") as W.
  { unfold generate_wordpress_content. rewrite P. reflexivity. }
  split; [exact W|].
  unfold Build.generate_pure_content. rewrite W.
  destruct (Build.extra_is_empty info); reflexivity.
Qed.

Lemma empty_record_renders_heading_only_witness :
  let info := parse_config_file (py "demo") (Ok (py "[软件信息]\n标题 = Demo\n版本 = 3\n")) in
  generate_wordpress_content info = py "<h3>软件介绍</h3>\n\n"
  /\ Build.generate_pure_content info = py "<h3>软件介绍</h3>\n\n".
Proof.
  intro info.
  apply (@empty_record_renders_heading_only info).
  - right. left. reflexivity.
  - left. reflexivity.
  - left. reflexivity.
  - left. reflexivity.
  - left. left. reflexivity.
Defined.

(** X20.  A screenshot value with more than three parts: the first three
    are caption, attribution and URL, whatever follows the third bar is
    dropped. *)
Theorem screenshot_extra_parts_dropped (a b c rest : str) :
  contains (py "|") a = false -> contains (py "|") b = false ->
  contains (py "|") c = false ->
  parse_screenshot (a ++ py "|" ++ b ++ py "|" ++ c ++ py "|" ++ rest)
  = mk_shot (Some (strip a)) (Some (strip b)) (Some (strip c)).
Proof.
  intros Ha Hb Hc. unfold parse_screenshot.
  rewrite contains_middle.
  apply no_bar in Ha, Hb, Hc.
  change (py "|") with [124%N].
  rewrite !split_cons_piece by assumption. reflexivity.
Qed.

Lemma screenshot_extra_parts_dropped_witness :
  parse_screenshot (py "Main" ++ py "|" ++ py "me" ++ py "|" ++ py "http://x/y.png"
                    ++ py "|" ++ py "640x480|png")
  = mk_shot (Some (strip (py "Main"))) (Some (strip (py "me")))
            (Some (strip (py "http://x/y.png"))).
Proof.
  apply screenshot_extra_parts_dropped; reflexivity.
Defined.

(** *** The default captions *)

Lemma nat_of_str_snoc (ds : str) (d : char) :
  Notions.nat_of_str (ds ++ [d])
  = 10 * Notions.nat_of_str ds + (N.to_nat d - 48).
Proof. unfold Notions.nat_of_str. rewrite fold_left_app. reflexivity. Qed.

Lemma digit_value (r : nat) : N.to_nat (48 + N.of_nat r) - 48 = r.
Proof.
  rewrite N2Nat.inj_add, Nat2N.id. change (N.to_nat 48) with 48. lia.
Qed.

Lemma digits_aux_value (fuel : nat) :
  forall n acc, n < fuel ->
  exists ds, digits_aux fuel n acc = ds ++ acc /\ Notions.nat_of_str ds = n.
Proof.
  induction fuel as [|f IH]; intros n acc Hn.
  - lia.
  - cbn [digits_aux]. cbv zeta.
    pose proof (Nat.div_mod_eq n 10) as D.
    destruct (n / 10 =? 0) eqn:Q.
    + apply Nat.eqb_eq in Q.
      exists [(48 + N.of_nat (n mod 10))%N]. split; [reflexivity|].
      change (Notions.nat_of_str [(48 + N.of_nat (n mod 10))%N])
        with (10 * 0 + (N.to_nat (48 + N.of_nat (n mod 10)) - 48)).
      rewrite digit_value. rewrite Q in D. lia.
    + apply Nat.eqb_neq in Q.
      assert (n / 10 < f) as L by lia.
      destruct (IH (n / 10) ((48 + N.of_nat (n mod 10))%N :: acc) L) as [ds [E V]].
      exists (ds ++ [(48 + N.of_nat (n mod 10))%N]). split.
      * rewrite E, <- app_assoc. reflexivity.
      * rewrite nat_of_str_snoc, V, digit_value. lia.
Qed.

(** The decimal digits of a number read back give the number. *)
Lemma str_of_nat_round_trip (n : nat) : Notions.nat_of_str (str_of_nat n) = n.
Proof.
  unfold str_of_nat.
  destruct (@digits_aux_value (S n) n [] (Nat.lt_succ_diag_r n)) as [ds [E V]].
  rewrite E, app_nil_r. exact V.
Qed.

Lemma caption_tail (i j : nat) :
  default_caption i = default_caption j -> str_of_nat (i + 1) = str_of_nat (j + 1).
Proof.
  unfold default_caption. intro E. exact (app_inv_head _ _ _ E).
Qed.

(** X21.  Two screenshots at different positions that both lack a caption
    get different default captions. *)
Theorem default_captions_differ (i j : nat) :
  i <> j -> default_caption i <> default_caption j.
Proof.
  intros H E. apply caption_tail in E.
  assert (Notions.nat_of_str (str_of_nat (i + 1))
          = Notions.nat_of_str (str_of_nat (j + 1))) as E'
      by (rewrite E; reflexivity).
  rewrite !str_of_nat_round_trip in E'. lia.
Qed.

Lemma default_captions_differ_witness : default_caption 0 <> default_caption 10.
Proof.
  apply default_captions_differ. discriminate.
Defined.

End RendererMore.

(* ================================================================== *)
(** * The call of the parser, with its console *)
(* ================================================================== *)

Section ParseCall.

Import PageTemplate.

(** On a file that was read the call returns the parsed record and never
    reaches the [except] branch. *)
Lemma call_on_readable (out : console) (stem content : str) :
  try_parse stem (Ok content) = Ok (parse_config_file stem (Ok content))
  /\ parse_config_file_call out stem (Ok content)
     = Ok (parse_config_file stem (Ok content)).
Proof.
  destruct (try_parse_ok stem content) as [st [_ [E _]]].
  unfold parse_config_file_call, parse_config_file. rewrite E.
  split; reflexivity.
Qed.

Lemma call_returns_record (out : console) (stem : str) (read : result str)
      (r : software_info) :
  parse_config_file_call out stem read = Ok r ->
  r = parse_config_file stem read.
Proof.
  unfold parse_config_file_call, parse_config_file.
  destruct (try_parse stem read) as [i | e].
  - intro H. injection H as ->. reflexivity.
  - destruct (print out (py "解析配置文件时出错: " ++ exn_text out e)) as [u | e'];
      cbn [bind]; intro H; [injection H as ->; reflexivity | discriminate H].
Qed.

Lemma parse_config_file_keys (stem : str) (read : result str) :
  Spec.has_scalar_keys (parse_config_file stem read).
Proof.
  unfold parse_config_file. destruct read as [content | e].
  - destruct (try_parse_ok stem content) as [st [_ [E _]]].
    rewrite E. apply fill_defaults_keys.
  - cbn [try_parse bind]. unfold Spec.has_scalar_keys, fallback_info.
    cbn [title name version description].
    split; [discriminate | split; [discriminate | split; discriminate]].
Qed.

(** C4, as amended.  When the [try] block raises -- an error of reading the
    file is such a case, and the only one: once the file is read the scan
    never raises -- the handler prints its message; if that [print]
    returns, the call returns the fallback record (the stem as title,
    ["未知软件"], ["1.0.0"], the error marker); if that [print] raises, its
    exception leaves the call.  Every record the call returns has its four
    scalar keys. *)
Theorem parse_recovers_when_message_printed
        (out : console) (stem : str) (read : result str) :
  (forall e,
      try_parse stem read = Raise e ->
      print out (py "解析配置文件时出错: " ++ exn_text out e) = Ok tt ->
      parse_config_file_call out stem read
      = Ok (mk_info (Some stem) (Some (py "未知软件")) (Some (py "1.0.0"))
                    (Some (Str (py "解析配置文件出错"))) None None None None))
  /\ (forall e e',
         try_parse stem read = Raise e ->
         print out (py "解析配置文件时出错: " ++ exn_text out e) = Raise e' ->
         parse_config_file_call out stem read = Raise e')
  /\ (forall e, read = Raise e -> try_parse stem read = Raise e)
  /\ (forall content,
         read = Ok content ->
         exists i, try_parse stem read = Ok i
                   /\ parse_config_file_call out stem read = Ok i)
  /\ (forall r,
         parse_config_file_call out stem read = Ok r ->
         Spec.has_scalar_keys r).
Proof.
  split; [|split; [|split; [|split]]].
  - intros e E P. unfold parse_config_file_call. rewrite E, P. reflexivity.
  - intros e e' E P. unfold parse_config_file_call. rewrite E, P. reflexivity.
  - intros e ->. reflexivity.
  - intros content ->.
    destruct (call_on_readable out stem content) as [T C].
    eexists. split; [exact T | exact C].
  - intros r H. rewrite (call_returns_record _ _ _ H).
    apply parse_config_file_keys.
Qed.

(** The file cannot be opened and the console takes the message. *)
Lemma parse_recovers_when_message_printed_witness :
  let out := mk_console (fun _ => py "[Errno 2] No such file or directory")
                        (fun _ => Ok tt) in
  parse_config_file_call out (py "broken") (Raise OSError)
  = Ok (mk_info (Some (py "broken")) (Some (py "未知软件")) (Some (py "1.0.0"))
                (Some (Str (py "解析配置文件出错"))) None None None None).
Proof.
  intro out.
  apply (proj1 (parse_recovers_when_message_printed out (py "broken") (Raise OSError))
               OSError).
  - reflexivity.
  - reflexivity.
Defined.

(** C4, as stated, fails: the file cannot be opened and the standard output
    cannot encode the handler's message; the [print] of the handler raises
    and no record is returned. *)
Lemma parse_can_fail_in_its_handler :
  ~ (forall (out : console) (stem : str) (read : result str) (e : exn),
        try_parse stem read = Raise e ->
        parse_config_file_call out stem read
        = Ok (mk_info (Some stem) (Some (py "未知软件")) (Some (py "1.0.0"))
                      (Some (Str (py "解析配置文件出错"))) None None None None)).
Proof.
  intro H.
  specialize (H (mk_console (fun _ => py "[Errno 2] No such file or directory")
                            (fun _ => Raise UnicodeEncodeError))
                (py "broken") (Raise OSError) OSError eq_refl).
  discriminate H.
Qed.

End ParseCall.

(* ================================================================== *)
(** * The text of the fragment *)
(* ================================================================== *)

Module Texts.

Import PageTemplate.

(** One paragraph. *)
Definition paragraph (s : str) : str := py "<p>" ++ s ++ py "</p>\n".

(** The short-code of one download link, in the specification's words: it
    carries the URL and, when the code is not blank, the code. *)
Definition link_text (l : download_link) : str :=
  let url := match l with
             | LinkDict d => match link_url d with Some u => u | None => [] end
             | LinkStr s => s
             end in
  let code := match l with
              | LinkDict d => match code d with Some c => c | None => [] end
              | LinkStr _ => []
              end in
  py " [link url=\x22" ++ url ++ py "\x22"
  ++ match strip code with
     | [] => []
     | _ => py " code=\x22" ++ code ++ py "\x22"
     end
  ++ py "][/link]".

(** The downloads block: heading, opening short-code, the links in lines of
    four, each line closed by a line feed, closing short-code. *)
Definition downloads_text (links : list download_link) : str :=
  py "<h3>软件下载</h3>\n" ++ py "[downloads]\n"
  ++ concat (map (fun g => concat (map link_text g) ++ py "\n") (Spec.batches4 links))
  ++ py "[/downloads]\n".

(** The image block of the screenshot number [n] (counted from 1): the
    caption, which is [软件截图 n] when the screenshot has none; the
    attribution when it is not empty; the image tag of the URL. *)
Definition image_block (n : nat) (shot : screenshot) : str :=
  let caption := match shot with
                 | ShotDict d =>
                     match caption d with
                     | Some c => c
                     | None => py "软件截图 " ++ str_of_nat n
                     end
                 | ShotStr _ => py "软件截图 " ++ str_of_nat n
                 end in
  let attribution := match shot with
                     | ShotDict d =>
                         match attribution d with Some a => a | None => [] end
                     | ShotStr _ => []
                     end in
  let url := match shot with
             | ShotDict d => match shot_url d with Some u => u | None => [] end
             | ShotStr s => s
             end in
  py "[insertimg caption='" ++ caption ++ py "'"
  ++ match attribution with
     | [] => []
     | _ => py " attribution='" ++ attribution ++ py "'"
     end
  ++ py "]"
  ++ py "<img src=\x22" ++ url ++ py "\x22 />"
  ++ py "[/insertimg]\n".

(** The blocks of a list of screenshots, the first of them being number
    [n]. *)
Fixpoint image_blocks (n : nat) (shots : list screenshot) : str :=
  match shots with
  | [] => []
  | shot :: rest => image_block n shot ++ image_blocks (S n) rest
  end.

(** The screenshots section. *)
Definition screenshots_text (shots : list screenshot) : str :=
  py "<h3>软件截图</h3>\n" ++ image_blocks 1 shots ++ py "\n".

(** The text of a file given by its lines. *)
Fixpoint unlines (lines : list str) : str :=
  match lines with
  | [] => []
  | [line] => line
  | line :: rest => line ++ py "\n" ++ unlines rest
  end.

(** A line [key=value] of a file. *)
Definition key_value_line (kv : str * str) : str :=
  fst kv ++ py "=" ++ snd kv.

(** A line [key=value] that the loop handles as such: no equals sign in
    the key, no line feed, and neither blank, comment nor section title. *)
Definition entry_ok (kv : str * str) : Prop :=
  contains (py "=") (fst kv) = false
  /\ contains (py "\n") (key_value_line kv) = false
  /\ Spec.content_line (key_value_line kv) = true.

End Texts.

Section Fragments.

Import PageTemplate.

Lemma join_app (a b : list str) : join (a ++ b) = join a ++ join b.
Proof. apply concat_app. Qed.

Lemma concat_flat_map {A : Type} (f : A -> list str) (l : list A) :
  concat (flat_map f l) = concat (map (fun x => concat (f x)) l).
Proof.
  induction l as [|x l IH]; cbn [flat_map map concat].
  - reflexivity.
  - rewrite concat_app, IH. reflexivity.
Qed.

(** *** The introduction *)

(** C5.  For a record whose description was read from the value [A||B||C]
    (no vertical bar inside the segments), the rendered fragment is the
    introduction heading, the paragraph of [A], the paragraph of [B], the
    paragraph of [C] -- each segment trimmed, nothing between them -- and
    the empty line that closes the introduction, followed by the other
    sections.  [generate_pure_content] returns the same text whenever its
    clean-up is not run or finds no empty line followed by [<p>]. *)
Theorem description_three_paragraphs_in_fragment
        (info : software_info) (a b c : str) :
  contains (py "|") a = false -> contains (py "|") b = false ->
  contains (py "|") c = false ->
  description info = Some (parse_description (a ++ py "||" ++ b ++ py "||" ++ c)) ->
  parse_description (a ++ py "||" ++ b ++ py "||" ++ c)
  = Paras [strip a; strip b; strip c]
  /\ generate_wordpress_content info
  = py "<h3>软件介绍</h3>\n"
    ++ Texts.paragraph (strip a)
    ++ Texts.paragraph (strip b)
    ++ Texts.paragraph (strip c)
    ++ py "\n"
    ++ join (feature_parts info ++ screenshot_parts info
             ++ download_parts info ++ extra_parts info)
  /\ (Build.extra_is_empty info = false
      \/ contains (py "\n\n<p>") (generate_wordpress_content info) = false ->
      Build.generate_pure_content info = generate_wordpress_content info).
Proof.
  intros Ha Hb Hc Hd.
  destruct (description_segments_become_paragraphs info a b c Ha Hb Hc Hd)
    as [P I].
  split; [exact P|]. split.
  - unfold generate_wordpress_content, html_parts.
    rewrite join_app, I. unfold Texts.paragraph.
    cbn [join concat]. rewrite app_nil_r, <- !app_assoc. reflexivity.
  - intros [E | E]; unfold Build.generate_pure_content.
    + rewrite E. reflexivity.
    + destruct (Build.extra_is_empty info); [|reflexivity].
      rewrite (re_sub_del_no_match _ (py "\n\n<p>") _ match_empty_p_needs_prefix E).
      apply (re_sub_del_no_match _ (py "\n\n<p>") _ match_blank_p_needs_prefix E).
Qed.

(** The file of the example, parsed: both generators. *)
Lemma description_three_paragraphs_in_fragment_witness :
  let info := parse_config_file (py "demo") (Ok (py "[软件信息]\n描述 = A||B||C\n")) in
  (generate_wordpress_content info
   = py "<h3>软件介绍</h3>\n"
     ++ Texts.paragraph (strip (py "A"))
     ++ Texts.paragraph (strip (py "B"))
     ++ Texts.paragraph (strip (py "C"))
     ++ py "\n"
     ++ join (feature_parts info ++ screenshot_parts info
              ++ download_parts info ++ extra_parts info))
  /\ Build.generate_pure_content info = generate_wordpress_content info.
Proof.
  intro info.
  destruct (@description_three_paragraphs_in_fragment info (py "A") (py "B") (py "C")
              eq_refl eq_refl eq_refl eq_refl) as [_ [W P]].
  split; [exact W|].
  apply P. right. vm_compute. reflexivity.
Defined.

(** *** The downloads block *)

Lemma shortcode_of (url code : str) :
  (if truthy code && truthy (strip code)
   then py " [link url=\x22" ++ url ++ py "\x22 code=\x22" ++ code ++ py "\x22][/link]"
   else py " [link url=\x22" ++ url ++ py "\x22][/link]")
  = py " [link url=\x22" ++ url ++ py "\x22"
    ++ match strip code with
       | [] => []
       | _ => py " code=\x22" ++ code ++ py "\x22"
       end
    ++ py "][/link]".
Proof.
  assert (py "\x22][/link]" = py "\x22" ++ py "][/link]") as L1
      by (vm_compute; reflexivity).
  assert (py "\x22 code=\x22" = py "\x22" ++ py " code=\x22") as L2
      by (vm_compute; reflexivity).
  assert (strip (@nil char) = []) as L3 by reflexivity.
  rewrite L1, L2.
  destruct code as [|x code].
  - rewrite L3. cbn [truthy andb app]. reflexivity.
  - cbn [truthy andb]. destruct (strip (x :: code)) as [|y r].
    + cbn [truthy app]. reflexivity.
    + cbn [truthy]. rewrite <- !app_assoc. reflexivity.
Qed.

(** The short-code the renderer writes is the short-code of the
    specification, for a dictionary and for a bare URL alike. *)
Lemma link_shortcode_text (l : download_link) :
  link_shortcode l = Texts.link_text l.
Proof.
  unfold link_shortcode, Texts.link_text. cbv zeta.
  assert (py "" = @nil char) as L0 by (vm_compute; reflexivity).
  destruct l as [[[u|] [c|]] | s]; cbn [dict_get link_url code];
    rewrite ?L0; apply shortcode_of.
Qed.

Lemma batch_line (g : list download_link) :
  concat (map link_shortcode g ++ [py "\n"])
  = concat (map Texts.link_text g) ++ py "\n".
Proof.
  rewrite concat_app. cbn [concat]. rewrite app_nil_r.
  rewrite (map_ext _ _ link_shortcode_text). reflexivity.
Qed.

Lemma downloads_join (info : software_info) (links : list download_link) :
  download_links info = Some links -> links <> [] ->
  join (download_parts info) = Texts.downloads_text links.
Proof.
  intros E Hne.
  rewrite (@download_parts_loop info links E Hne).
  rewrite link_loop_batches by reflexivity.
  unfold Texts.downloads_text, join.
  rewrite !concat_app, concat_flat_map.
  rewrite (map_ext _ _ batch_line).
  cbn [concat]. rewrite !app_nil_r, <- !app_assoc. reflexivity.
Qed.

(** C6.  With [n >= 1] download links the rendered fragment is the
    sections before the downloads, the downloads block, and the notes.  The
    block is the heading, the opening short-code, the link short-codes in
    lines of four -- each line its short-codes in order followed by one
    line feed -- and the closing short-code; a short-code carries the URL
    and, when the code is not blank, the code.  The lines are the list of
    links cut every four entries: exactly the [n] short-codes in order, a
    line feed after every 4th, and one after the last link when [n] is not
    a multiple of 4.  For five links without codes and nothing else in the
    record the fragment is spelled out. *)
Theorem downloads_block_in_fragment :
  (forall (info : software_info) (links : list download_link),
      download_links info = Some links -> links <> [] ->
      generate_wordpress_content info
      = join (intro_parts info ++ feature_parts info ++ screenshot_parts info)
        ++ Texts.downloads_text links
        ++ join (extra_parts info)
      /\ concat (Spec.batches4 links) = links
      /\ Spec.full_but_last (Spec.batches4 links))
  /\ (forall u1 u2 u3 u4 u5 : str,
         let link u := LinkDict (mk_link (Some u) (Some (py ""))) in
         let shortcode u := py " [link url=\x22" ++ u ++ py "\x22][/link]" in
         generate_wordpress_content
           (set_download_links [link u1; link u2; link u3; link u4; link u5] empty_info)
         = join [ py "<h3>软件介绍</h3>\n"; py "\n";
                  py "<h3>软件下载</h3>\n"; py "[downloads]\n";
                  shortcode u1; shortcode u2; shortcode u3; shortcode u4; py "\n";
                  shortcode u5; py "\n";
                  py "[/downloads]\n" ]).
Proof.
  split.
  - intros info links E Hne. split; [|split].
    + unfold generate_wordpress_content, html_parts.
      rewrite !app_assoc. rewrite !join_app.
      rewrite (downloads_join info E Hne).
      rewrite <- !app_assoc. reflexivity.
    + apply batches4_concat.
    + apply batches4_full.
  - intros. reflexivity.
Qed.

(** Six links: bare URLs, a dictionary with a code, a dictionary with a
    blank code. *)
Lemma downloads_block_in_fragment_witness :
  let links := [ LinkStr (py "u1");
                 LinkDict (mk_link (Some (py "u2")) (Some (py "k2")));
                 LinkStr (py "u3");
                 LinkDict (mk_link (Some (py "u4")) (Some (py " ")));
                 LinkStr (py "u5");
                 LinkStr (py "u6") ] in
  let info := set_download_links links empty_info in
  generate_wordpress_content info
  = join (intro_parts info ++ feature_parts info ++ screenshot_parts info)
    ++ Texts.downloads_text links
    ++ join (extra_parts info)
  /\ concat (Spec.batches4 links) = links
  /\ Spec.full_but_last (Spec.batches4 links).
Proof.
  intros links info.
  apply (proj1 downloads_block_in_fragment info links).
  - reflexivity.
  - discriminate.
Defined.

(** *** The screenshots *)

Lemma image_open (caption attribution rest : str) :
  (if truthy attribution
   then py "[insertimg caption='" ++ caption ++ py "' attribution='"
        ++ attribution ++ py "']"
   else py "[insertimg caption='" ++ caption ++ py "']") ++ rest
  = py "[insertimg caption='" ++ caption ++ py "'"
    ++ match attribution with
       | [] => []
       | _ => py " attribution='" ++ attribution ++ py "'"
       end
    ++ py "]" ++ rest.
Proof.
  assert (py "' attribution='" = py "'" ++ py " attribution='") as L1
      by (vm_compute; reflexivity).
  assert (py "']" = py "'" ++ py "]") as L2 by (vm_compute; reflexivity).
  rewrite L1, L2.
  destruct attribution as [|x a]; cbn [truthy].
  - cbn [app]. rewrite <- !app_assoc. reflexivity.
  - rewrite <- !app_assoc. reflexivity.
Qed.

Lemma image_open_default (caption rest : str) :
  (py "[insertimg caption='" ++ caption ++ py "']") ++ rest
  = py "[insertimg caption='" ++ caption ++ py "'" ++ [] ++ py "]" ++ rest.
Proof.
  assert (py "']" = py "'" ++ py "]") as L2 by (vm_compute; reflexivity).
  rewrite L2. cbn [app]. rewrite <- !app_assoc. reflexivity.
Qed.

(** The three parts the renderer appends for the screenshot at index [i]
    are the image block number [i + 1]. *)
Lemma block_text (i : nat) (shot : screenshot) :
  join (screenshot_block i shot) = Texts.image_block (i + 1) shot.
Proof.
  assert (py "" = @nil char) as L0 by (vm_compute; reflexivity).
  unfold screenshot_block, Texts.image_block, default_caption. cbv zeta.
  destruct shot as [[[c|] [a|] [u|]] | s];
    cbn [dict_get caption attribution shot_url join concat];
    rewrite ?L0, app_nil_r;
    first [ rewrite image_open | rewrite image_open_default ];
    rewrite <- ?app_assoc; reflexivity.
Qed.

Lemma blocks_from (shots : list screenshot) :
  forall k,
    concat (flat_map (fun p => screenshot_block (fst p) (snd p))
                     (combine (seq k (length shots)) shots))
    = Texts.image_blocks (k + 1) shots.
Proof.
  induction shots as [|shot shots IH]; intro k.
  - reflexivity.
  - cbn [length seq combine flat_map fst snd Texts.image_blocks].
    rewrite concat_app. fold (join (screenshot_block k shot)).
    rewrite block_text, (IH (S k)). reflexivity.
Qed.

Lemma screenshots_join (info : software_info) (shots : list screenshot) :
  screenshots info = Some shots -> shots <> [] ->
  join (screenshot_parts info) = Texts.screenshots_text shots.
Proof.
  intros E Hne. unfold screenshot_parts. rewrite E. cbn [dict_get].
  destruct shots as [|shot shots]; [contradiction|]. cbn [nonempty].
  unfold Texts.screenshots_text, enumerate, join.
  rewrite !concat_app, blocks_from.
  cbn [concat]. rewrite !app_nil_r. reflexivity.
Qed.

(** *** A file of screenshot lines, parsed *)

Lemma lines_unlines (lines : list str) :
  lines <> [] ->
  Forall (fun line => contains (py "\n") line = false) lines ->
  split (py "\n") (Texts.unlines lines) = lines.
Proof.
  induction lines as [|x lines IH]; intros Hne H; [contradiction|].
  inversion H as [|? ? Hx Hl]; subst.
  destruct lines as [|y lines].
  - cbn [Texts.unlines]. apply lines_single. exact Hx.
  - change (Texts.unlines (x :: y :: lines))
      with (x ++ py "\n" ++ Texts.unlines (y :: lines)).
    rewrite lines_app, (lines_single x Hx), IH; [reflexivity | discriminate | exact Hl].
Qed.

Lemma screenshot_line_step (st : pstate) (key value : str) :
  current_section st = Some (py "软件截图") ->
  contains (py "=") key = false ->
  Spec.content_line (key ++ py "=" ++ value) = true ->
  process_line st (key ++ py "=" ++ value)
  = Ok (add_screenshot (ShotDict (parse_screenshot (strip value))) st).
Proof.
  intros Hsec Hk Hc.
  destruct (key_value_cut key value Hk) as [_ [C S]].
  destruct (content_line_tests _ Hc) as [T1 T2].
  pose proof (@in_section_of _ st (py "软件信息") Hsec) as S1.
  pose proof (@in_section_of _ st (py "功能介绍") Hsec) as S2.
  pose proof (@in_section_of _ st (py "软件截图") Hsec) as S3.
  change (str_eqb (py "软件截图") (py "软件信息")) with false in S1.
  change (str_eqb (py "软件截图") (py "功能介绍")) with false in S2.
  change (str_eqb (py "软件截图") (py "软件截图")) with true in S3.
  unfold process_line. cbv zeta. rewrite T1, T2, S1, S2, S3, C, S.
  cbn [unpack2 bind snd]. rewrite strip_rstrip. reflexivity.
Qed.

Lemma scan_screenshot_lines (entries : list (str * str)) :
  forall st,
    current_section st = Some (py "软件截图") ->
    Forall Texts.entry_ok entries ->
    scan st (map Texts.key_value_line entries)
    = Ok (mk_pstate (info st) (current_section st) (temp_downloads st)
                    (temp_features st)
                    (temp_screenshots st
                     ++ map (fun kv => ShotDict (parse_screenshot (strip (snd kv))))
                            entries)).
Proof.
  induction entries as [|[k v] entries IH]; intros st Hsec H.
  - destruct st as [i sec td tf ts]. cbn [map scan]. rewrite app_nil_r. reflexivity.
  - inversion H as [|? ? [Hk [_ Hc]] Hrest]; subst.
    cbn [map scan]. unfold Texts.key_value_line at 1. cbn [fst snd] in *.
    rewrite (screenshot_line_step st k v Hsec Hk Hc). cbn [bind].
    rewrite (IH (add_screenshot (ShotDict (parse_screenshot (strip v))) st) Hsec Hrest).
    cbn [add_screenshot info current_section temp_downloads temp_features
         temp_screenshots].
    rewrite <- app_assoc. reflexivity.
Qed.

Lemma header_step :
  process_line init_pstate (py "[软件截图]")
  = Ok (with_section (py "软件截图") init_pstate).
Proof. vm_compute. reflexivity. Qed.

Lemma parse_screenshot_file (stem : str) (entries : list (str * str)) :
  entries <> [] ->
  Forall Texts.entry_ok entries ->
  parse_config_file stem
    (Ok (Texts.unlines (py "[软件截图]" :: map Texts.key_value_line entries)))
  = mk_info (Some stem) (Some stem) (Some (py "1.0.0")) (Some (Str (py "")))
            None
            (Some (map (fun kv => ShotDict (parse_screenshot (strip (snd kv))))
                       entries))
            None None.
Proof.
  intros Hne H.
  unfold parse_config_file, try_parse. cbn [bind].
  rewrite lines_unlines.
  - cbn [scan]. rewrite header_step. cbn [bind].
    rewrite (@scan_screenshot_lines entries (with_section (py "软件截图") init_pstate)
               eq_refl H).
    cbn [bind].
    destruct entries as [|e entries]; [contradiction|].
    reflexivity.
  - discriminate.
  - constructor; [vm_compute; reflexivity|].
    apply Forall_map. eapply Forall_impl; [|exact H].
    intros kv [_ [N _]]. exact N.
Qed.

(** C7, as amended.  A screenshot value of three parts separated by vertical
    bars gives a dictionary with the trimmed caption, attribution and URL;
    two parts give caption and URL; a value without a bar gives the URL
    alone.  In the rendered fragment the screenshots section is the heading,
    one image block per screenshot in order, and an empty line; the block
    number [N] (counted from 1) carries the caption -- [软件截图 N] when the
    screenshot has none --, carries the attribution exactly when it is not
    empty, and wraps the image tag of the URL.  A file made of the section
    title [软件截图] and lines [key=value] is parsed into the record whose
    screenshots are the dictionaries of the trimmed values, in order. *)
Theorem screenshot_forms_in_fragment :
  (forall cap attr url : str,
      contains (py "|") cap = false -> contains (py "|") attr = false ->
      contains (py "|") url = false ->
      parse_screenshot (cap ++ py "|" ++ attr ++ py "|" ++ url)
      = mk_shot (Some (strip cap)) (Some (strip attr)) (Some (strip url))
      /\ parse_screenshot (cap ++ py "|" ++ url)
         = mk_shot (Some (strip cap)) None (Some (strip url))
      /\ parse_screenshot url = mk_shot None None (Some url))
  /\ (forall (info : software_info) (shots : list screenshot),
         screenshots info = Some shots -> shots <> [] ->
         generate_wordpress_content info
         = join (intro_parts info ++ feature_parts info)
           ++ Texts.screenshots_text shots
           ++ join (download_parts info ++ extra_parts info))
  /\ (forall (stem : str) (entries : list (str * str)),
         entries <> [] ->
         Forall Texts.entry_ok entries ->
         parse_config_file stem
           (Ok (Texts.unlines (py "[软件截图]" :: map Texts.key_value_line entries)))
         = mk_info (Some stem) (Some stem) (Some (py "1.0.0")) (Some (Str (py "")))
                   None
                   (Some (map (fun kv => ShotDict (parse_screenshot (strip (snd kv))))
                              entries))
                   None None).
Proof.
  split; [|split].
  - intros cap attr url Hc Ha Hu. unfold parse_screenshot. split; [|split].
    + rewrite contains_middle, split_bar_3 by assumption. reflexivity.
    + rewrite contains_middle, split_bar_2 by assumption. reflexivity.
    + rewrite Hu. reflexivity.
  - intros info shots E Hne.
    unfold generate_wordpress_content, html_parts.
    rewrite (app_assoc (intro_parts info)), !join_app.
    rewrite (screenshots_join info E Hne).
    rewrite <- !app_assoc. reflexivity.
  - apply parse_screenshot_file.
Qed.

(** The three forms in one file. *)
Lemma screenshot_forms_in_fragment_witness :
  let entries := [ (py "1 ", py " Cap|Attr|http://x/y.png");
                   (py "2 ", py " Cap2 | http://x/z.png");
                   (py "3 ", py " http://x/w.png") ] in
  parse_config_file (py "demo")
    (Ok (Texts.unlines (py "[软件截图]" :: map Texts.key_value_line entries)))
  = mk_info (Some (py "demo")) (Some (py "demo")) (Some (py "1.0.0"))
            (Some (Str (py "")))
            None
            (Some (map (fun kv => ShotDict (parse_screenshot (strip (snd kv))))
                       entries))
            None None.
Proof.
  intro entries.
  apply (proj2 (proj2 screenshot_forms_in_fragment) (py "demo") entries).
  - discriminate.
  - repeat (constructor; [split; [|split]; vm_compute; reflexivity|]).
    constructor.
Defined.

(** The fragment of that file, spelled out: the attribution is written for
    the first screenshot only, and the third takes its caption from its
    position. *)
Lemma screenshot_file_fragment :
  generate_wordpress_content
    (parse_config_file (py "demo")
       (Ok (py "[软件截图]\n1 = Cap|Attr|http://x/y.png\n2 = Cap2 | http://x/z.png\n3 = http://x/w.png")))
  = py "<h3>软件介绍</h3>\n\n<h3>软件截图</h3>\n[insertimg caption='Cap' attribution='Attr']<img src=\x22http://x/y.png\x22 />[/insertimg]\n[insertimg caption='Cap2']<img src=\x22http://x/z.png\x22 />[/insertimg]\n[insertimg caption='软件截图 3']<img src=\x22http://x/w.png\x22 />[/insertimg]\n\n".
Proof. vm_compute. reflexivity. Qed.

(** C7, as stated, fails: for the value [Cap||http://x/y.png] -- three
    parts, the attribution empty -- the fragment carries the caption and no
    attribution at all. *)
Lemma empty_attribution_is_not_written :
  ~ (forall cap attr url : str,
        contains (py "|") cap = false -> contains (py "|") attr = false ->
        contains (py "|") url = false ->
        contains (py "[insertimg caption='" ++ strip cap ++ py "' attribution='"
                  ++ strip attr ++ py "']")
                 (generate_wordpress_content
                    (parse_config_file (py "demo")
                       (Ok (py "[软件截图]\n1 = "
                            ++ cap ++ py "|" ++ attr ++ py "|" ++ url))))
        = true).
Proof.
  intro H.
  specialize (H (py "Cap") (py "") (py "http://x/y.png") eq_refl eq_refl eq_refl).
  vm_compute in H. discriminate H.
Qed.

End Fragments.
